(** * Student roster dashboard (app.py): record store, configuration, search

    A shallow embedding of the parts of [app.py] that load, change and
    persist the student table, and of the configuration loader.

    Modelling choices, all read off the script:
    - a [DataFrame] is its ordered column labels and its rows, each row a
      finite map from column label to cell;
    - the file system is a finite map from path to file text; the script
      only ever touches [CSV_PATH] and [CONFIG_PATH];
    - pandas' CSV reader and writer and the [json] module are libraries the
      script calls; they are taken as interfaces ([Pandas], [Json]), so
      nothing is assumed about them unless a statement says so; what pandas
      reads back from a file it wrote is described by [reread], and assumed
      of the reader and writer only where a statement says so ([PandasCsv]);
    - a cell is kept in the table as it is assigned; pandas holds each column
      under one type and converts cells where an assignment or a
      concatenation mixes types (an integer next to a float becomes that
      float), which is not modelled: the statements on the content of rows
      other than the written one, or on a table once it is loaded again, are
      made for tables typed as the data model has it ([schema_typed],
      [canonical]), on which no conversion occurs;
    - Streamlit widgets are inputs (function arguments), [st.success] and
      [st.error] are outputs ([feedback]);
    - [datetime.now()] is an input, already formatted;
    - a string is the UTF-8 text of Python's; [str.lower] is Python's own
      ([Python]), of which only its effect on ASCII text is used;
    - an integer cell is a [numpy.int64], whose sum wraps around. *)

From Stdlib Require Import ZArith QArith Qminmax String Ascii.
From stdpp Require Import base strings list gmap pretty.

#[local] Set Warnings "-clear-no-such-hyp".

Local Close Scope Q_scope.
Local Open Scope string_scope.
Local Open Scope list_scope.
Local Open Scope Z_scope.

(** ** Cells *)

(** What a cell of the table can hold.  [VNone] is Python's [None] (what
    [df[col] = None] stores), [VNaN] the missing value pandas reads from an
    empty field.  A float is carried by the rational it denotes: the script
    stores and compares floats but never computes with them. *)
Inductive value :=
  | VNone
  | VNaN
  | VInt (n : Z)
  | VFloat (x : Q)
  | VStr (s : string).

Abbreviation row := (gmap string value).

Record DataFrame := mkDataFrame {
  columns : list string;
  rows : list row
}.

(** [len(df)] *)
Definition len (df : DataFrame) : nat := length (rows df).

(** The cell of row [r] under column [col]; a row that lacks the label has a
    missing value there. *)
Definition cell (col : string) (r : row) : value := default VNaN (r !! col).

(** [df[col]] as the list of its cells. *)
Definition column (col : string) (df : DataFrame) : list value :=
  cell col <$> rows df.

(** [df[col] = v] with a scalar [v]: the column is overwritten, or appended
    as the last column when the label is new. *)
Definition set_column (col : string) (v : value) (df : DataFrame) : DataFrame :=
  {| columns := if bool_decide (col ∈ columns df) then columns df
                else columns df ++ [col];
     rows := (λ r, <[col := v]> r) <$> rows df |}.

(** ** Libraries the script calls *)

(** [pd.read_csv] on a file text ([None]: it raises) and
    [df.to_csv(index=False)]. *)
Class Pandas := {
  read_csv : string → option DataFrame;
  to_csv : DataFrame → string
}.

#[local] Unset Elimination Schemes.
Inductive json :=
  | JNull
  | JBool (b : bool)
  | JInt (n : Z)
  | JStr (s : string)
  | JList (l : list json)
  | JObj (l : list (string * json)).
#[local] Set Elimination Schemes.

(** [json.load] on a file text ([None]: it raises) and
    [json.dump(_, f, indent=4)]. *)
Class Json := {
  json_load : string → option json;
  json_dump : json → string
}.

(** ** Files *)

Abbreviation FS := (gmap string string).

Definition CSV_PATH : string := "data/db.csv".
Definition CONFIG_PATH : string := "config/config.json".

(** ** Configuration *)

Definition default_config : json :=
  JObj [ ("university_name", JStr "Université Azure");
         ("max_students", JInt 1000);
         ("min_age", JInt 16);
         ("max_age", JInt 70);
         ("specialties",
           JList [ JStr "Informatique"; JStr "Mathématiques"; JStr "Physique";
                   JStr "Chimie"; JStr "Biologie"; JStr "Économie";
                   JStr "Droit"; JStr "Médecine" ]);
         ("version", JStr "1.0.0") ].

Section Config.
Context `{Json}.

(** [load_config]: the configuration it returns and the file system it
    leaves.  The [try] covers opening and parsing; its bare [except]
    returns the defaults and writes nothing. *)
Definition load_config (fs : FS) : json * FS :=
  match fs !! CONFIG_PATH with
  | Some text =>
      match json_load text with
      | Some config => (config, fs)
      | None => (default_config, fs)
      end
  | None =>
      (default_config, <[CONFIG_PATH := json_dump default_config]> fs)
  end.

(** The sidebar's "Enregistrer la configuration". *)
Definition save_config (config : json) (fs : FS) : FS :=
  <[CONFIG_PATH := json_dump config]> fs.
End Config.

(** ** Loading and saving the table *)

Definition required_columns : list string :=
  ["id"; "nom"; "prenom"; "specialite"; "moyenne_generale"; "age";
   "date_inscription"; "email"].

Definition create_empty_dataframe : DataFrame :=
  {| columns := ["id"; "nom"; "prenom"; "specialite"; "moyenne_generale";
                 "age"; "date_inscription"; "email"; "credits"; "statut"];
     rows := [] |}.

(** The loop of [load_data] over [required_columns]. *)
Definition ensure_columns (df : DataFrame) : DataFrame :=
  foldl (λ df col, if bool_decide (col ∈ columns df) then df
                   else set_column col VNone df)
        df required_columns.

Section Store.
Context `{Pandas}.

Definition load_data (fs : FS) : DataFrame :=
  match fs !! CSV_PATH with
  | Some text =>
      match read_csv text with
      | Some df => ensure_columns df
      | None => create_empty_dataframe
      end
  | None => create_empty_dataframe
  end.

Definition save_data (df : DataFrame) (fs : FS) : FS :=
  <[CSV_PATH := to_csv df]> fs.
End Store.

(** ** Strings *)

(** A letter [A]-[Z] goes to its lower case, every other byte is kept. *)
Definition lower_ascii (c : ascii) : ascii :=
  let n := nat_of_ascii c in
  if (Nat.leb 65 n && Nat.leb n 90)%bool then ascii_of_nat (n + 32) else c.

Fixpoint ascii_lower (s : string) : string :=
  match s with
  | EmptyString => EmptyString
  | String c s' => String (lower_ascii c) (ascii_lower s')
  end.

(** A text made of ASCII characters only. *)
Fixpoint ascii_text (s : string) : bool :=
  match s with
  | EmptyString => true
  | String c s' => Nat.ltb (nat_of_ascii c) 128 && ascii_text s'
  end.

(** [str.lower].  Python folds every capital letter of Unicode, accented
    ones included; its table is not copied here.  [lower] stands for
    Python's function, and all that is used of it is what it does to a text
    made of ASCII characters: [A]-[Z] are lowered, the rest is kept. *)
Class Python := {
  lower : string → string;
  lower_ascii_text : ∀ s, ascii_text s = true → lower s = ascii_lower s
}.

(** [s.replace(' ', '')] *)
Fixpoint replace_spaces (s : string) : string :=
  match s with
  | EmptyString => EmptyString
  | String c s' =>
      if Ascii.eqb c " "%char then replace_spaces s'
      else String c (replace_spaces s')
  end.

(** Truth value of a string in a condition: non-empty. *)
Definition truthy (s : string) : bool :=
  match s with EmptyString => false | String _ _ => true end.

(** ** Identifier cells *)

(** One cell of [df['id'] == student_id]. *)
Definition eq_int (v : value) (n : Z) : bool :=
  match v with
  | VInt m => m =? n
  | VFloat x => Qeq_bool x (inject_Z n)
  | VNone | VNaN | VStr _ => false
  end.

(** The row mask [df['id'] == student_id], row by row. *)
Definition has_id (student_id : Z) (r : row) : bool :=
  eq_int (cell "id" r) student_id.

(** One step of [Series.max()], which skips missing cells.  [None]: a
    string cell, on which the comparison or the later [+ 1] raises
    [TypeError]. *)
Definition max_step (acc : option value) (v : value) : option value :=
  match acc with
  | None => None
  | Some a =>
      match a, v with
      | _, VStr _ | VStr _, _ => None
      | _, (VNone | VNaN) => Some a
      | (VNone | VNaN), _ => Some v
      | VInt x, VInt y => Some (VInt (Z.max x y))
      | VInt x, VFloat y => Some (VFloat (Qmax (inject_Z x) y))
      | VFloat x, VInt y => Some (VFloat (Qmax x (inject_Z y)))
      | VFloat x, VFloat y => Some (VFloat (Qmax x y))
      end
  end.

(** [Series.max()]: [VNaN] when every cell is missing. *)
Definition series_max (cells : list value) : option value :=
  foldl max_step (Some VNaN) cells.

(** The value of a [numpy.int64] sum: it wraps around at [2^63]. *)
Definition wrap64 (z : Z) : Z := (z + 2 ^ 63) mod 2 ^ 64 - 2 ^ 63.

(** [_ + 1] on the result of [max()].  The maximum of integer cells is a
    [numpy.int64], so the sum wraps around: [2^63 - 1] gives [- 2^63]. *)
Definition plus_one (v : value) : option value :=
  match v with
  | VInt n => Some (VInt (wrap64 (n + 1)))
  | VFloat x => Some (VFloat (x + 1)%Q)
  | VNaN => Some VNaN
  | VNone | VStr _ => None
  end.

(** [df['id'].max() + 1 if 'id' in df.columns and len(df) > 0 else 1];
    [None] when the expression raises. *)
Definition new_id (df : DataFrame) : option value :=
  if bool_decide ("id" ∈ columns df) && bool_decide (0 < len df)%nat then
    m ← series_max (column "id" df); plus_one m
  else Some (VInt 1).

(** ** Frames built by the handlers *)

(** A row seen under the labels [cols]: a label the row lacks gets a
    missing value. *)
Definition reindex (cols : list string) (r : row) : row :=
  foldr (λ c m, match m !! c with Some _ => m | None => <[c := VNaN]> m end)
        r cols.

(** [pd.concat([a, b], ignore_index=True)]: the labels of [a], then those
    of [b] that [a] lacks; the rows of [a], then those of [b], each cell as
    it was (pandas converts the cells of a column whose two parts differ in
    type, or in which one part is missing, to their common type). *)
Definition concat (a b : DataFrame) : DataFrame :=
  let cols := columns a ++ filter (λ c, c ∉ columns a) (columns b) in
  {| columns := cols;
     rows := (reindex cols <$> rows a) ++ (reindex cols <$> rows b) |}.

(** [pd.DataFrame([d])] for one dict given as its items in order. *)
Definition DataFrame_of_dict (items : list (string * value)) : DataFrame :=
  {| columns := items.*1; rows := [list_to_map items] |}.

(** [df.loc[mask, col] = val]: on the selected rows the cell is set; a new
    label is appended, missing on the rows not selected.  The value is
    stored as given and the other cells are kept (pandas converts the
    column when the value is not of its type: a float written to a column
    of integers turns its cells into floats, an integer written to a column
    of floats is stored as a float). *)
Definition loc_set (mask : row → bool) (col : string) (val : value)
    (df : DataFrame) : DataFrame :=
  if bool_decide (col ∈ columns df) then
    {| columns := columns df;
       rows := (λ r, if mask r then <[col := val]> r else r) <$> rows df |}
  else
    {| columns := columns df ++ [col];
       rows := (λ r, <[col := if mask r then val else VNaN]> r) <$> rows df |}.

(** [df[mask]] *)
Definition select (mask : row → bool) (df : DataFrame) : DataFrame :=
  {| columns := columns df; rows := filter (λ r, mask r) (rows df) |}.

(** ** Handlers *)

(** What a handler shows: [st.success] or [st.error]. *)
Inductive feedback :=
  | created (prenom nom : string) (new_id : value)
  | required_fields_missing
  | updated (prenom nom : string)
  | deleted
  | replaced
  | appended.

(** The dict [new_student], as its items in source order. *)
Definition new_student `{Python} (new_id : value) (nom prenom specialite : string)
    (moyenne : Q) (age : Z) (email : string) (credits : Z)
    (university_name now : string) : list (string * value) :=
  [ ("id", new_id);
    ("nom", VStr nom);
    ("prenom", VStr prenom);
    ("specialite", VStr specialite);
    ("moyenne_generale", VFloat moyenne);
    ("age", VInt age);
    ("date_inscription", VStr now);
    ("email", VStr (if truthy email then email
                    else lower prenom +:+ "." +:+ lower nom +:+ "@"
                         +:+ replace_spaces (lower university_name) +:+ ".fr"));
    ("credits", VInt credits);
    ("statut", VStr "Actif") ].

Definition update_cols : list string :=
  ["nom"; "prenom"; "specialite"; "moyenne_generale"; "age"; "email";
   "credits"; "statut"].

(** The update loop: one [df.loc[df['id'] == student_id, col] = val] per
    pair of [zip(update_cols, update_values)]. *)
Definition update (df : DataFrame) (student_id : Z)
    (update_values : list value) : DataFrame :=
  foldl (λ df cv, loc_set (has_id student_id) cv.1 cv.2 df)
        df (zip update_cols update_values).

Definition update_values (nom prenom specialite : string) (moyenne : Q)
    (age : Z) (email : string) (credits : Z) (statut : string) : list value :=
  [VStr nom; VStr prenom; VStr specialite; VFloat moyenne; VInt age;
   VStr email; VInt credits; VStr statut].

(** [df[df['id'] != student_id]] *)
Definition delete (df : DataFrame) (student_id : Z) : DataFrame :=
  select (λ r, negb (has_id student_id r)) df.

Inductive import_option := Remplacer | Ajouter.

Section Handlers.
Context `{Pandas} `{Python}.

(** The body of [if submitted:] in the "Créer" form.  [None]: the script
    raises while computing [new_id]. *)
Definition create (df : DataFrame) (fs : FS) (nom prenom specialite : string)
    (moyenne : Q) (age : Z) (email : string) (credits : Z)
    (university_name now : string) : option (DataFrame * FS * feedback) :=
  if truthy nom && truthy prenom && truthy specialite then
    new_id ← new_id df;
    let new_df := DataFrame_of_dict
      (new_student new_id nom prenom specialite moyenne age email credits
                   university_name now) in
    let df := concat df new_df in
    Some (df, save_data df fs, created prenom nom new_id)
  else Some (df, fs, required_fields_missing).


(** The "Confirmer la suppression" button. *)
Definition delete_handler (df : DataFrame) (fs : FS) (student_id : Z)
    : DataFrame * FS * feedback :=
  let df := delete df student_id in
  (df, save_data df fs, deleted).

(** The "Importer les données" button. *)
Definition import_handler (df : DataFrame) (fs : FS) (new_df : DataFrame)
    (option : import_option) : DataFrame * FS * feedback :=
  match option with
  | Remplacer => (new_df, save_data new_df fs, replaced)
  | Ajouter =>
      let df := concat df new_df in (df, save_data df fs, appended)
  end.
End Handlers.

(** ** Search *)

(** [str(v)], as [astype(str)] applies it to the cells of a column.  The
    text of a float is not modelled ([None]). *)
Definition str_value (v : value) : option string :=
  match v with
  | VNone => Some "None"
  | VNaN => Some "nan"
  | VInt n => Some (pretty n)
  | VFloat _ => None
  | VStr s => Some s
  end.

(** [df[col].dtype == 'object'], read off the cells: a column is held as
    Python objects when it has a string or a [None] in it. *)
Definition is_object (cells : list value) : bool :=
  existsb (λ v, match v with VStr _ | VNone => true | _ => false end) cells.

(** [Series.str.contains(pat, na=False)] takes [pat] as a regular
    expression (pandas' default [regex=True]).  The model covers patterns
    made of ordinary characters and the wildcard [.]; any other special
    character puts the pattern outside it. *)
Inductive re_item :=
  | re_any
  | re_lit (c : ascii).

Definition special_characters : string := ".^$*+?{}[]\|()".

Fixpoint occurs (c : ascii) (s : string) : bool :=
  match s with
  | EmptyString => false
  | String c' s' => Ascii.eqb c c' || occurs c s'
  end.

Fixpoint re_compile (pat : string) : option (list re_item) :=
  match pat with
  | EmptyString => Some []
  | String c pat' =>
      items ← re_compile pat';
      if Ascii.eqb c "."%char then Some (re_any :: items)
      else if occurs c special_characters then None
      else Some (re_lit c :: items)
  end.

(** The pattern matches a prefix of [s]; [.] matches any character but a
    newline. *)
Fixpoint re_match (items : list re_item) (s : string) : bool :=
  match items, s with
  | [], _ => true
  | _ :: _, EmptyString => false
  | re_any :: items', String c s' =>
      negb (Ascii.eqb c "010"%char) && re_match items' s'
  | re_lit a :: items', String c s' => Ascii.eqb a c && re_match items' s'
  end.

(** [re.search]: the pattern matches somewhere in [s]. *)
Fixpoint re_search (items : list re_item) (s : string) : bool :=
  re_match items s ||
  match s with
  | EmptyString => false
  | String _ s' => re_search items s'
  end.

Section Search.
Context `{Python}.

(** One cell of [df[col].astype(str).str.lower().str.contains(q, na=False)]. *)
Definition cell_contains (items : list re_item) (v : value) : option bool :=
  s ← str_value v; Some (re_search items (lower s)).

(** The labels the loop keeps: [df[col].dtype == 'object']. *)
Definition object_columns (df : DataFrame) : list string :=
  filter (λ col, is_object (column col df)) (columns df).

(** The value of [mask] at one row once the loop over the columns is done. *)
Definition row_mask (items : list re_item) (cols : list string) (r : row)
    : option bool :=
  foldl (λ mask col, m ← mask; b ← cell_contains items (cell col r);
                     Some (m || b))
        (Some false) cols.

(** [rows[mask]] for a boolean mask as long as the rows. *)
Fixpoint boolean_index (rs : list row) (mask : list bool) : list row :=
  match rs, mask with
  | r :: rs', b :: mask' =>
      if b then r :: boolean_index rs' mask' else boolean_index rs' mask'
  | _, _ => []
  end.

(** The body of [if search_query:] up to [results = df[mask]].  [None]: the
    query or a cell is outside the model. *)
Definition search (df : DataFrame) (search_query : string) : option DataFrame :=
  let search_query_lower := lower search_query in
  items ← re_compile search_query_lower;
  mask ← mapM (row_mask items (object_columns df)) (rows df);
  Some {| columns := columns df; rows := boolean_index (rows df) mask |}.
End Search.

(** ** Bulk deletion and reset *)

(** What the maintenance section shows. *)
Inductive maintenance_feedback :=
  | nothing_shown
  | warning_shown
  | all_deleted
  | wrong_password.

(** [st.button(label)] in one run of the script.  A run is started by at
    most one click, [clicked]; the button of that label returns [True] in
    that run, every other button [False]. *)
Definition button (clicked : option string) (label : string) : bool :=
  bool_decide (clicked = Some label).

Section Maintenance.
Context `{Pandas}.

(** The third column of the maintenance row, in one run: the button
    "Supprimer TOUTES les données", and under it the warning, the
    confirmation field (whose text is [password]) and the button
    "Confirmer la suppression totale" with its body. *)
Definition delete_all_handler (clicked : option string) (df : DataFrame)
    (fs : FS) (password : string) : DataFrame * FS * maintenance_feedback :=
  if button clicked "🗑️ Supprimer TOUTES les données" then
    if button clicked "Confirmer la suppression totale" then
      if String.eqb password "SUPPRIMER" then
        let df := create_empty_dataframe in
        (df, save_data df fs, all_deleted)
      else (df, fs, wrong_password)
    else (df, fs, warning_shown)
  else (df, fs, nothing_shown).
End Maintenance.

(** The "Réinitialiser l'application" button: each of the two files is
    removed if it exists. *)
Definition reset_handler (fs : FS) : FS :=
  foldl (λ fs file, if bool_decide (is_Some (fs !! file))
                    then base.delete file fs else fs)
        fs [CSV_PATH; CONFIG_PATH].

(** ** The configuration in the sidebar *)

(** [config[key]] on a parsed document.  [None]: it raises ([KeyError], or
    [TypeError] when the document is not an object). *)
Definition getitem (config : json) (key : string) : option json :=
  match config with
  | JObj items => list_find (λ kv, kv.1 = key) items ≫= λ ikv, Some ikv.2.2
  | _ => None
  end.

(** The items of a dict after [d[key] = v]: the value is replaced in
    place, or the key is added last. *)
Fixpoint set_item (items : list (string * json)) (key : string) (v : json)
    : list (string * json) :=
  match items with
  | [] => [(key, v)]
  | kv :: items' =>
      if String.eqb kv.1 key then (kv.1, v) :: items'
      else kv :: set_item items' key v
  end.

(** [config[key] = v].  [None]: the document is not an object and the
    assignment raises. *)
Definition setitem (config : json) (key : string) (v : json) : option json :=
  match config with
  | JObj items => Some (JObj (set_item items key v))
  | _ => None
  end.

Section Sidebar.
Context `{Json}.

(** The "Enregistrer la configuration" button, with the text of the name
    field: the configuration it leaves in memory and the file system. *)
Definition save_configuration (config : json) (university_name : string)
    (fs : FS) : option (json * FS) :=
  config ← setitem config "university_name" (JStr university_name);
  Some (config, save_config config fs).
End Sidebar.

(** ** Choosing a student *)

(** The label of a row in the select boxes of "Mettre à jour" and
    "Supprimer": [f"{x['id']} - {x['prenom']} {x['nom']} ({x['specialite']})"].
    [None]: a float cell, whose text is not modelled. *)
Definition student_name (r : row) : option string :=
  id ← str_value (cell "id" r);
  prenom ← str_value (cell "prenom" r);
  nom ← str_value (cell "nom" r);
  specialite ← str_value (cell "specialite" r);
  Some (id +:+ " - " +:+ prenom +:+ " " +:+ nom +:+ " (" +:+ specialite +:+ ")").

(** [student_names]: one label per row, in order. *)
Definition student_names (df : DataFrame) : option (list string) :=
  mapM student_name (rows df).

(** [s.split(sep)[0]]: the text before the first occurrence of [sep], the
    whole text when there is none. *)
Fixpoint first_piece (sep s : string) : string :=
  match s with
  | EmptyString => EmptyString
  | String c s' =>
      if String.prefix sep s then EmptyString
      else String c (first_piece sep s')
  end.

(** The value of a decimal digit. *)
Definition digit (c : ascii) : option N :=
  let n := N_of_ascii c in
  if bool_decide (48 ≤ n ≤ 57)%N then Some (n - 48)%N else None.

(** The number read from a run of digits, after the digits already read. *)
Fixpoint digits (acc : N) (s : string) : option N :=
  match s with
  | EmptyString => Some acc
  | String c s' => d ← digit c; digits (acc * 10 + d)%N s'
  end.

(** [int(s)] on a text made of an optional sign and decimal digits.
    [None]: [int] raises [ValueError], or the text has one of the other
    forms [int] accepts (spaces around it, underscores between digits),
    which the model leaves out. *)
Definition int_of_text (s : string) : option Z :=
  match s with
  | EmptyString => None
  | String c s' =>
      if Ascii.eqb c "-" then
        match s' with
        | EmptyString => None
        | _ => n ← digits 0 s'; Some (- Z.of_N n)
        end
      else if Ascii.eqb c "+" then
        match s' with
        | EmptyString => None
        | _ => n ← digits 0 s'; Some (Z.of_N n)
        end
      else n ← digits 0 s; Some (Z.of_N n)
  end.

(** [int(selected_student.split(" - ")[0])] *)
Definition selected_id (selected_student : string) : option Z :=
  int_of_text (first_piece " - " selected_student).

(** [df[df['id'] == student_id].iloc[0]].  [None]: no row is selected and
    [iloc[0]] raises [IndexError]. *)
Definition student_data (df : DataFrame) (student_id : Z) : option row :=
  head (rows (select (has_id student_id) df)).

(** ** What pandas reads back from what it wrote

    [to_csv] writes every cell as text and [read_csv] gives each column one
    type, guessed from the texts of the whole column.  [reread] is the table
    [read_csv] returns from the text [to_csv] wrote for a table ([None]: the
    table is outside the part of pandas described here). *)

(** The range of [numpy.int64]. *)
Definition int64 (n : Z) : Prop := - 2 ^ 63 ≤ n < 2 ^ 63.

#[global] Instance int64_dec (n : Z) : Decision (int64 n).
Proof. unfold int64. apply _. Defined.

(** An integer a float holds exactly. *)
Definition small (n : Z) : Prop := - 2 ^ 53 ≤ n ≤ 2 ^ 53.

#[global] Instance small_dec (n : Z) : Decision (small n).
Proof. unfold small. apply _. Defined.

(** A field made of decimal digits after an optional [-] is read as that
    integer. *)
Definition int_field (s : string) : option Z :=
  if String.prefix "+" s then None else int_of_text s.

(** The characters a number is written with. *)
Definition number_characters : string := "0123456789+-.eE ".

(** The text without its spaces, ASCII letters lowered. *)
Definition squash (s : string) : string := ascii_lower (replace_spaces s).

(** Texts [read_csv] takes for a missing value, a boolean or an infinite
    float, here in lower case and without spaces. *)
Definition reserved_words : list string :=
  ["nan"; "na"; "n/a"; "null"; "none"; "<na>"; "#n/a"; "#n/an/a"; "#na";
   "-nan"; "-1.#ind"; "-1.#qnan"; "1.#ind"; "1.#qnan"; "true"; "false";
   "inf"; "-inf"; "+inf"; "infinity"; "-infinity"; "+infinity"].

(** No control character. *)
Fixpoint printable_text (s : string) : bool :=
  match s with
  | EmptyString => true
  | String c s' =>
      Nat.leb 32 (nat_of_ascii c) && negb (Nat.eqb (nat_of_ascii c) 127)
      && printable_text s'
  end.

(** Some character of [s] is not one of [chars]. *)
Fixpoint has_other (chars s : string) : bool :=
  match s with
  | EmptyString => false
  | String c s' => negb (occurs c chars) || has_other chars s'
  end.

(** A text that [read_csv] gives back as the same text whatever the rest of
    its column: it is not empty, has no control character, has a character
    no number is written with, and is none of the reserved words in any
    case. *)
Definition plain_text (s : string) : bool :=
  truthy s && printable_text s && has_other number_characters s
  && negb (bool_decide (squash s ∈ reserved_words)).

(** A float that is a multiple of 0.5 of moderate size, as the slider of the
    forms gives: the text [to_csv] writes for it ([12.0], [12.5]) is read
    back as the same float.  (The default reader of [read_csv] does not
    give back every float from its shortest text.) *)
Definition half_step (x : Q) : bool :=
  Z.eqb ((2 * Qnum x) mod Zpos (Qden x)) 0
  && Z.leb (Z.abs (Qnum x)) (1000000 * Zpos (Qden x)).

(** What a cell is in the file. *)
Inductive token :=
  | t_missing
  | t_int (n : Z) (text : string)
  | t_float (x : Q)
  | t_text (s : string)
  | t_other.

(** The field [to_csv] writes for a cell, as [read_csv] sees it: [None] and
    NaN are written as the empty field, an integer in decimal, a float by
    its shortest text, a string as it is (quoted where needed).  [t_other]:
    a field left out of the model (an integer outside [int64], a float that
    is not a multiple of 0.5, a string that looks like a float, a reserved
    word, a text with control characters). *)
Definition token_of (v : value) : token :=
  match v with
  | VNone | VNaN => t_missing
  | VInt n => if bool_decide (int64 n) then t_int n (pretty n) else t_other
  | VFloat x => if half_step x then t_float x else t_other
  | VStr s =>
      if negb (truthy s) then t_missing
      else match int_field s with
           | Some n => if bool_decide (int64 n) then t_int n s else t_other
           | None => if plain_text s then t_text s else t_other
           end
  end.

Inductive dtype := int64_dtype | float64_dtype | object_dtype.

Definition is_missing (t : token) : bool :=
  match t with t_missing => true | _ => false end.
Definition is_float (t : token) : bool :=
  match t with t_float _ => true | _ => false end.
Definition is_text (t : token) : bool :=
  match t with t_text _ => true | _ => false end.
Definition is_other (t : token) : bool :=
  match t with t_other => true | _ => false end.
Definition is_small (t : token) : bool :=
  match t with t_int n _ => bool_decide (small n) | _ => true end.

(** The type [read_csv] gives a column, from its fields: [object] when
    some field is a text, [float64] when the fields are numbers or missing
    and one is a float or missing, [int64] when all are integers.  [None]:
    outside the model (the text of a float among strings, an integer too
    large for a float). *)
Definition dtype_of (fields : list token) : option dtype :=
  if existsb is_other fields then None
  else if existsb is_text fields then
    if existsb is_float fields then None else Some object_dtype
  else if existsb is_float fields || existsb is_missing fields then
    if forallb is_small fields then Some float64_dtype else None
  else Some int64_dtype.

(** The cell read from a field of a column of type [d]. *)
Definition read_token (d : dtype) (t : token) : value :=
  match d, t with
  | int64_dtype, t_int n _ => VInt n
  | float64_dtype, t_int n _ => VFloat (inject_Z n)
  | float64_dtype, t_float x => VFloat x
  | object_dtype, t_int _ text => VStr text
  | object_dtype, t_text s => VStr s
  | _, _ => VNaN
  end.

(** The header [read_csv] gives back as written: at least two labels, all
    different, none empty, no control character. *)
Definition labels_ok (cols : list string) : bool :=
  bool_decide (2 ≤ length cols)%nat && bool_decide (NoDup cols)
  && forallb (λ c, truthy c && printable_text c) cols.

(** The row read from the fields of a row, under the types of the columns. *)
Definition read_row (types : list (string * dtype)) (r : row) : row :=
  list_to_map ((λ cd, (cd.1, read_token cd.2 (token_of (cell cd.1 r))))
               <$> types).

Definition reread (df : DataFrame) : option DataFrame :=
  if labels_ok (columns df) then
    types ← mapM (λ c, d ← dtype_of (token_of <$> column c df); Some (c, d))
                 (columns df);
    Some {| columns := columns df; rows := read_row types <$> rows df |}
  else None.


(** ** A reader and writer for examples *)

#[global] Instance Q_eq_dec : EqDecision Q.
Proof. solve_decision. Defined.

#[global] Instance value_eq_dec : EqDecision value.
Proof. solve_decision. Defined.

#[global] Instance DataFrame_eq_dec : EqDecision DataFrame.
Proof. solve_decision. Defined.

(** A pandas that knows a finite book of file texts and the tables they
    hold: it reads a text of the book as its table (any other text raises)
    and writes a table of the book as its text. *)
Definition pandas_of (book : list (string * DataFrame)) : Pandas :=
  {| read_csv text :=
       list_find (λ e, e.1 = text) book ≫= λ ie, Some ie.2.2;
     to_csv df :=
       default "" (list_find (λ e, e.2 = df) book ≫= λ ie, Some ie.2.1) |}.

(** ** Definitions used by the statements and proofs *)

(** One pass of the loop of [load_data]. *)
Definition ensure_step (df : DataFrame) (col : string) : DataFrame :=
  if bool_decide (col ∈ columns df) then df else set_column col VNone df.

(** What the loop of [df.loc[mask, col] = val] assignments makes of one row,
    given the labels the table has when the loop starts. *)
Fixpoint loop_row (mask : row → bool) (cols : list string)
    (cvs : list (string * value)) (r : row) : row :=
  match cvs with
  | [] => r
  | cv :: cvs' =>
      loop_row mask
        (if bool_decide (cv.1 ∈ cols) then cols else cols ++ [cv.1]) cvs'
        (if mask r then <[cv.1 := cv.2]> r
         else if bool_decide (cv.1 ∈ cols) then r else <[cv.1 := VNaN]> r)
  end.

(** A mask that no assignment of the loop can change. *)
Definition stable (mask : row → bool) (cvs : list (string * value)) : Prop :=
  ∀ c v r, c ∈ cvs.*1 → mask (<[c := v]> r) = mask r.

(** The row a selected record becomes: the eight assignments in order. *)
Definition overwrite (nom prenom specialite : string) (moyenne : Q) (age : Z)
    (email : string) (credits : Z) (statut : string) (r : row) : row :=
  <["statut" := VStr statut]> (<["credits" := VInt credits]>
  (<["email" := VStr email]> (<["age" := VInt age]>
  (<["moyenne_generale" := VFloat moyenne]>
  (<["specialite" := VStr specialite]> (<["prenom" := VStr prenom]>
  (<["nom" := VStr nom]> r))))))).

(** Pandas reads back the table it wrote. *)
Definition reads_back `{Pandas} (df : DataFrame) : Prop :=
  read_csv (to_csv df) = Some df.

(** The integer identifiers of a table, row by row. *)
Definition ids (df : DataFrame) : list Z :=
  omap (λ r : row, match r !! "id" with Some (VInt n) => Some n | _ => None end)
       (rows df).

(** Every row carries an integer [id] (the table is typed as the data model
    has it). *)
Definition integer_ids (df : DataFrame) : Prop :=
  Forall (λ r : row, ∃ n, r !! "id" = Some (VInt n)) (rows df).

(** No [id] cell is a string. *)
Definition numeric_ids (df : DataFrame) : Prop :=
  Forall (λ v, ∀ s, v ≠ VStr s) (column "id" df).

(** A cell [max()] can return. *)
Definition numeric (v : value) : Prop :=
  match v with VNaN | VInt _ | VFloat _ => True | VNone | VStr _ => False end.

(** The form of the "Créer" tab is filled in as required. *)
Definition valid_input (nom prenom specialite : string) : Prop :=
  nom ≠ "" ∧ prenom ≠ "" ∧ specialite ≠ "".

(** Python's [q in s] on strings: [s] starts with [q], and [q] occurs
    somewhere in [s]. *)
Fixpoint starts_with (q s : string) : bool :=
  match q, s with
  | EmptyString, _ => true
  | String _ _, EmptyString => false
  | String a q', String c s' => Ascii.eqb a c && starts_with q' s'
  end.

Fixpoint is_in (q s : string) : bool :=
  starts_with q s ||
  match s with
  | EmptyString => false
  | String _ s' => is_in q s'
  end.

(** A query without any character that is special in a pattern. *)
Fixpoint plain (q : string) : bool :=
  match q with
  | EmptyString => true
  | String c q' => negb (occurs c special_characters) && plain q'
  end.

(** The pattern that matches the text [q] itself. *)
Fixpoint literal (q : string) : list re_item :=
  match q with
  | EmptyString => []
  | String c q' => re_lit c :: literal q'
  end.

(** The specified reading of a match: some text cell of the row, in a column
    held as objects, contains the query, both lower-cased. *)
Definition has_text `{Python} (df : DataFrame) (q : string) (r : row) : Prop :=
  ∃ col s, col ∈ object_columns df ∧ cell col r = VStr s ∧
           is_in (lower q) (lower s) = true.

(** What the loop computes on a plain query: the query occurs in the text
    [astype(str)] gives for some cell of an object column. *)
Definition hit `{Python} (q : string) (cols : list string) (r : row) : bool :=
  existsb (λ col, match str_value (cell col r) with
                  | Some s => is_in (lower q) (lower s)
                  | None => false
                  end) cols.

(** No float among the cells that [astype(str)] is applied to. *)
Definition printable (df : DataFrame) : Prop :=
  ∀ (r : row) col, r ∈ rows df → col ∈ object_columns df →
    is_Some (str_value (cell col r)).

(** ** Instances for examples *)

(** [str.lower] on texts whose capital letters are those of ASCII and of
    Latin-1 ([À] to [Þ], in UTF-8 the byte 195 followed by a byte from 128
    to 158 other than 151, the multiplication sign): the second byte of
    such a letter is raised by 32, as [É] to [é]. *)
Definition latin_capital (c c' : ascii) : bool :=
  Nat.eqb (nat_of_ascii c) 195 && Nat.leb 128 (nat_of_ascii c')
  && Nat.leb (nat_of_ascii c') 158 && negb (Nat.eqb (nat_of_ascii c') 151).

Fixpoint latin_lower (s : string) : string :=
  match s with
  | EmptyString => EmptyString
  | String c s' =>
      match s' with
      | String c' s'' =>
          if latin_capital c c'
          then String c (String (ascii_of_nat (nat_of_ascii c' + 32))
                                (latin_lower s''))
          else String (lower_ascii c) (latin_lower s')
      | EmptyString => String (lower_ascii c) EmptyString
      end
  end.

Definition latin_python : Python.
Proof.
  refine {| lower := latin_lower |}.
  intros s. induction s as [|c s IH]; [done|].
  cbn [ascii_text]. intros [Hc Hs]%andb_true_iff.
  cbn [latin_lower ascii_lower]. destruct s as [|c' s'].
  - done.
  - assert (latin_capital c c' = false) as ->.
    { unfold latin_capital. apply Nat.ltb_lt in Hc.
      rewrite (proj2 (Nat.eqb_neq _ _)) by lia. done. }
    by rewrite (IH Hs).
Defined.

(** A table and a query made of ASCII text, as far as the search reads
    them. *)
Definition ascii_table (df : DataFrame) : bool :=
  forallb (λ r : row,
    forallb (λ col, match str_value (cell col r) with
                    | Some s => ascii_text s
                    | None => true
                    end) (object_columns df)) (rows df).

#[global] Instance Q_countable : Countable Q.
Proof.
  refine (inj_countable' (λ q, (Qnum q, Qden q)) (λ p, Qmake p.1 p.2) _).
  by intros [].
Defined.

#[global] Instance value_countable : Countable value.
Proof.
  refine (inj_countable'
    (λ v, match v with
          | VNone => inl (inl ())
          | VNaN => inl (inr ())
          | VInt n => inr (inl n)
          | VFloat x => inr (inr (inl x))
          | VStr s => inr (inr (inr s))
          end)
    (λ c : (unit + unit) + (Z + (Q + string)),
       match c with
       | inl (inl _) => VNone
       | inl (inr _) => VNaN
       | inr (inl n) => VInt n
       | inr (inr (inl x)) => VFloat x
       | inr (inr (inr s)) => VStr s
       end) _).
  by intros [].
Defined.

#[global] Instance DataFrame_countable : Countable DataFrame.
Proof.
  refine (inj_countable' (λ df, (columns df, rows df))
                         (λ p, mkDataFrame p.1 p.2) _).
  by intros [].
Defined.

(** A positive number as a text of binary digits, and back. *)
Fixpoint string_of_pos (p : positive) : string :=
  match p with
  | xH => EmptyString
  | xO p' => String "0" (string_of_pos p')
  | xI p' => String "1" (string_of_pos p')
  end.

Fixpoint pos_of_string (s : string) : option positive :=
  match s with
  | EmptyString => Some xH
  | String c s' =>
      if Ascii.eqb c "0" then xO <$> pos_of_string s'
      else if Ascii.eqb c "1" then xI <$> pos_of_string s'
      else None
  end.

(** A pandas whose reader gives, on what its writer wrote, the table
    [reread] describes.  The text of the file is not the CSV text: it is a
    code of the table written, which is all the statements on saving and
    loading depend on. *)
Definition pandas_model : Pandas :=
  {| read_csv text := p ← pos_of_string text; df ← decode p; reread df;
     to_csv df := string_of_pos (encode df) |}.

(** ** The canonical schema *)

Inductive kind := k_int | k_float | k_text.

(** The type the data model gives a column: [id], [age] and [credits] are
    integers, [moyenne_generale] is a float, the others are texts. *)
Definition kind_of (col : string) : kind :=
  if bool_decide (col ∈ ["id"; "age"; "credits"]) then k_int
  else if bool_decide (col = "moyenne_generale") then k_float
  else k_text.

Definition typed (col : string) (v : value) : Prop :=
  match kind_of col with
  | k_int => ∃ n, v = VInt n
  | k_float => ∃ x, v = VFloat x
  | k_text => ∃ s, v = VStr s
  end.

(** A table with the ten columns of the data model, every cell of the type
    of its column. *)
Definition schema_typed (df : DataFrame) : Prop :=
  columns df = columns create_empty_dataframe ∧
  Forall (λ r : row, ∀ c, c ∈ columns df → typed c (cell c r)) (rows df).

(** A cell of the given type that the file keeps as it is: an integer of
    [int64], a float that is a multiple of 0.5, a plain text. *)
Definition shape (k : kind) (v : value) : Prop :=
  match k with
  | k_int => ∃ n, v = VInt n ∧ int64 n
  | k_float => ∃ x, v = VFloat x ∧ half_step x = true
  | k_text => ∃ s, v = VStr s ∧ plain_text s = true
  end.

(** A row with nothing but the ten cells of the data model, each of the
    type of its column and kept by the file as it is. *)
Definition canonical_row (r : row) : Prop :=
  (∀ c, c ∉ columns create_empty_dataframe → r !! c = None) ∧
  ∀ c, c ∈ columns create_empty_dataframe → shape (kind_of c) (cell c r).

(** A table that conforms to the canonical schema and that the file keeps
    as it is. *)
Definition canonical (df : DataFrame) : Prop :=
  columns df = columns create_empty_dataframe ∧ Forall canonical_row (rows df).

(** ** Tables and files of the examples *)

(** A student as a row with the ten canonical labels. *)
Definition student (id : Z) (nom prenom specialite : string) (moyenne : Q)
    (age : Z) (date_inscription email : string) (credits : Z)
    (statut : string) : row :=
  list_to_map [("id", VInt id); ("nom", VStr nom); ("prenom", VStr prenom);
               ("specialite", VStr specialite);
               ("moyenne_generale", VFloat moyenne); ("age", VInt age);
               ("date_inscription", VStr date_inscription);
               ("email", VStr email); ("credits", VInt credits);
               ("statut", VStr statut)].

(** A stored file with the columns [id] and [nom] only, and one student. *)
Definition text_id_nom : string :=
  "id,nom" +:+ String "010" ("1,Dupont" +:+ String "010" "").

Definition df_id_nom : DataFrame :=
  {| columns := ["id"; "nom"];
     rows := [list_to_map [("id", VInt 1); ("nom", VStr "Dupont")]] |}.

(** One student, with all ten labels; no text cell has a dot in it. *)
Definition df_no_dot : DataFrame :=
  {| columns := columns create_empty_dataframe;
     rows := [student 1 "Dupont" "Jean" "Informatique" 12 20
                      "2024-09-01 10:00:00" "jean@localhost" 180 "Actif"] |}.

(** Two students, the second without an email. *)
Definition row_martin : row :=
  <["email" := VNaN]>
    (student 2 "Martin" "Lea" "Physique" 15 22 "2024-09-02 09:30:00" "" 120
             "Actif").

Definition df_missing_email : DataFrame :=
  {| columns := columns create_empty_dataframe;
     rows := [student 1 "Dupont" "Jean" "Informatique" 12 20
                      "2024-09-01 10:00:00" "jean@localhost" 180 "Actif";
              row_martin] |}.

Definition dupont : row :=
  student 1 "Dupont" "Jean" "Informatique" 12 20 "2024-09-01 10:00:00"
          "jean.dupont@univ.fr" 180 "Actif".

Definition martin : row :=
  student 3 "Martin" "Lea" "Physique" 15 22 "2024-09-02 09:30:00"
          "lea.martin@univ.fr" 120 "Actif".

Definition bernard : row :=
  student 5 "Bernard" "Paul" "Droit" 9 25 "2024-09-03 14:00:00"
          "paul.bernard@univ.fr" 60 "Inactif".

(** The table with the identifiers 1, 3 and 5. *)
Definition df_135 : DataFrame :=
  {| columns := columns create_empty_dataframe;
     rows := [dupont; martin; bernard] |}.

(** The same table after the update of student 3 and after his deletion. *)
Definition df_135_updated : DataFrame :=
  update df_135 3
    (update_values "Martin" "Lea" "Chimie" 16 23 "lea@univ.fr" 150 "Actif").

Definition df_135_deleted : DataFrame := delete df_135 3.

(** A pandas that knows these three tables, and a stored file that holds
    the first. *)
Definition pandas_135 : Pandas :=
  pandas_of [("text of df_135", df_135);
             ("text of df_135_updated", df_135_updated);
             ("text of df_135_deleted", df_135_deleted)].

Definition fs_135 : FS := {[CSV_PATH := "text of df_135"]}.

(** Two rows with the identifier 1, as an import in append mode leaves
    them. *)
Definition df_duplicates : DataFrame :=
  {| columns := columns create_empty_dataframe;
     rows := [dupont;
              student 1 "Durand" "Anne" "Chimie" 14 21 "2024-09-04 08:00:00"
                      "anne.durand@univ.fr" 180 "Actif"] |}.

(** A pandas that knows the empty canonical table. *)
Definition pandas_empty : Pandas :=
  pandas_of [("text of the empty table", create_empty_dataframe)].

(** A configuration with two keys, the same after the name is changed, and
    a [json] that reads every text as the latter. *)
Definition config_two_keys : list (string * json) :=
  [("university_name", JStr "Université Azure"); ("version", JStr "1.0.0")].

Definition config_renamed : json :=
  JObj [("university_name", JStr "Université de Paris");
        ("version", JStr "1.0.0")].

Definition json_renamed : Json :=
  {| json_load _ := Some config_renamed; json_dump _ := "text of config_renamed" |}.

(** A table of numbers only. *)
Definition df_numbers : DataFrame :=
  {| columns := ["id"; "age"];
     rows := [list_to_map [("id", VInt 1); ("age", VInt 20)];
              list_to_map [("id", VInt 2); ("age", VNaN)]] |}.

(** A table with one student, and one with the single identifier 7. *)
Definition df_dupont_only : DataFrame :=
  {| columns := columns create_empty_dataframe; rows := [dupont] |}.

Definition df_seven : DataFrame :=
  {| columns := columns create_empty_dataframe;
     rows := [student 7 "Petit" "Luc" "Droit" 11 19 "2024-09-06 10:00:00"
                      "luc.petit@univ.fr" 180 "Actif"] |}.

(** A student whose [id] is the largest [int64]. *)
Definition df_largest_id : DataFrame :=
  {| columns := columns create_empty_dataframe;
     rows := [student (2 ^ 63 - 1) "Petit" "Luc" "Droit" 11 19
                      "2024-09-06 10:00:00" "luc.petit@univ.fr" 180 "Actif"] |}.




(** * Properties *)

(** Membership in a list given by its elements. *)
Ltac in_list :=
  solve [ repeat first [ apply list_elem_of_here | apply list_elem_of_further ] ].

Ltac solve_lookup :=
  unfold overwrite;
  repeat first [ rewrite lookup_insert_eq; reflexivity
               | rewrite lookup_insert_ne by discriminate ];
  try reflexivity.

(** ** Loading *)

Lemma ensure_columns_unfold df :
  ensure_columns df = foldl ensure_step df required_columns.
Proof. reflexivity. Qed.

Lemma ensure_step_columns df col :
  columns (ensure_step df col) =
  if bool_decide (col ∈ columns df) then columns df else columns df ++ [col].
Proof.
  unfold ensure_step. case_bool_decide as Hin; [done|].
  simpl. by rewrite bool_decide_eq_false_2.
Qed.

(** The loop over any list of labels: which labels the result has, and
    what each row becomes, cell by cell. *)
Lemma ensure_loop_spec (cols : list string) : ∀ df : DataFrame,
  let df' := foldl ensure_step df cols in
  columns df `prefix_of` columns df' ∧
  (∀ c, c ∈ columns df' ↔ c ∈ columns df ∨ c ∈ cols) ∧
  ∃ f : row → row,
    rows df' = f <$> rows df ∧
    ∀ (r : row) c, f r !! c =
      if decide (c ∈ cols ∧ c ∉ columns df) then Some VNone else r !! c.
Proof.
  induction cols as [|c0 cols IH]; intros df; simpl.
  - split; [done|]. split; [set_solver|].
    exists id. split; [by rewrite list_fmap_id|].
    intros r c. done.
  - destruct (IH (ensure_step df c0)) as (Hpre & Hcols & f & Hrows & Hf).
    pose proof (ensure_step_columns df c0) as Hc0.
    split; [|split].
    + etrans; [|exact Hpre]. rewrite Hc0.
      case_bool_decide; [done|]. by apply prefix_app_r.
    + intros c. rewrite Hcols, Hc0.
      case_bool_decide; set_solver.
    + unfold ensure_step in *. case_bool_decide as Hin.
      * exists f. split; [done|]. intros r c. rewrite Hf.
        repeat case_decide; try done; set_solver.
      * exists (λ r, f (<[c0 := VNone]> r)). split.
        { rewrite Hrows. simpl. by rewrite <- list_fmap_compose. }
        intros r c. rewrite Hf. simpl in *.
        rewrite bool_decide_eq_false_2 in * by done.
        destruct (decide (c = c0)) as [->|Hne].
        -- rewrite lookup_insert_eq. repeat case_decide; try done; set_solver.
        -- rewrite lookup_insert_ne by done.
           repeat case_decide; try done; set_solver.
Qed.

Lemma ensure_columns_id df :
  required_columns ⊆ columns df → ensure_columns df = df.
Proof.
  rewrite ensure_columns_unfold. generalize required_columns.
  intros cols. induction cols as [|c cols IH]; intros Hsub; [done|].
  simpl. unfold ensure_step at 2.
  rewrite bool_decide_eq_true_2 by set_solver. apply IH. set_solver.
Qed.

Lemma required_in_canonical :
  required_columns ⊆ columns create_empty_dataframe.
Proof. intros c Hc. unfold required_columns in Hc. simpl. set_solver. Qed.

Section StoreFacts.
Context `{Pandas}.

Lemma load_data_required (fs : FS) : required_columns ⊆ columns (load_data fs).
Proof.
  unfold load_data.
  destruct (fs !! CSV_PATH) as [text|]; [|apply required_in_canonical].
  destruct (read_csv text) as [df|]; [|apply required_in_canonical].
  rewrite ensure_columns_unfold.
  destruct (ensure_loop_spec required_columns df) as (_ & Hcols & _).
  intros c Hc. apply Hcols. by right.
Qed.

(** What the script adds to the library's round trip: a table with the
    required columns that pandas reads back as written is loaded as
    saved. *)
Lemma load_save (df : DataFrame) (fs : FS) :
  read_csv (to_csv df) = Some df →
  required_columns ⊆ columns df →
  load_data (save_data df fs) = df.
Proof.
  intros Hrt Hreq. unfold load_data, save_data.
  rewrite lookup_insert_eq, Hrt. by apply ensure_columns_id.
Qed.

Lemma save_data_other (df : DataFrame) (fs : FS) path :
  path ≠ CSV_PATH → save_data df fs !! path = fs !! path.
Proof. intros Hne. unfold save_data. by rewrite lookup_insert_ne. Qed.
End StoreFacts.

Section LoadClaims.
Context `{Pandas}.

(** C1, as amended.  [load_data] is total and its result always has the
    eight labels of [required_columns] (id, nom, prenom, specialite,
    moyenne_generale, age, date_inscription, email).  On a stored file that
    parses, the stored labels come first and in order, the only labels added
    are required ones the file lacks, every row is kept, each added cell is
    [None] and every other cell is as stored; in particular [credits] and
    [statut] are present only if the file has them.  When the file is absent
    or does not parse, the result is the empty table with all ten labels. *)
Theorem load_data_required_columns (fs : FS) :
  required_columns ⊆ columns (load_data fs) ∧
  (∀ text df, fs !! CSV_PATH = Some text → read_csv text = Some df →
     columns df `prefix_of` columns (load_data fs) ∧
     (∀ c, c ∈ columns (load_data fs) ↔ c ∈ columns df ∨ c ∈ required_columns) ∧
     length (rows (load_data fs)) = length (rows df) ∧
     ∀ i r, rows df !! i = Some r →
       ∃ r', rows (load_data fs) !! i = Some r' ∧
         ∀ c, r' !! c =
           if decide (c ∈ required_columns ∧ c ∉ columns df) then Some VNone
           else r !! c) ∧
  (fs !! CSV_PATH = None ∨
   (∃ text, fs !! CSV_PATH = Some text ∧ read_csv text = None) →
   load_data fs = create_empty_dataframe).
Proof.
  split; [apply load_data_required|]. split.
  - intros text df Hfile Hparse. unfold load_data. rewrite Hfile, Hparse.
    rewrite ensure_columns_unfold.
    destruct (ensure_loop_spec required_columns df)
      as (Hpre & Hcols & f & Hrows & Hf).
    split; [exact Hpre|]. split; [exact Hcols|]. split.
    + by rewrite Hrows, length_fmap.
    + intros i r Hi. exists (f r). split; [|apply Hf].
      by rewrite Hrows, list_lookup_fmap, Hi.
  - unfold load_data. intros [Habs | (text & Hfile & Hparse)].
    + by rewrite Habs.
    + by rewrite Hfile, Hparse.
Qed.
End LoadClaims.

(** C1, as stated, fails: a stored file with the columns [id] and [nom]
    loads as a table without [credits] (and without [statut]), so the
    loaded labels do not cover the ten canonical ones. *)
Lemma load_data_misses_credits :
  ¬ (columns create_empty_dataframe ⊆
     columns (@load_data (pandas_of [(text_id_nom, df_id_nom)])
                {[CSV_PATH := text_id_nom]})).
Proof.
  intros Hsub. assert ("credits" ∈ columns create_empty_dataframe) as Hin.
  { simpl. set_solver. }
  apply Hsub in Hin. vm_compute in Hin. set_solver.
Qed.

(** ** Configuration *)

Section ConfigClaims.
Context `{Json}.

(** C9.  [load_config] returns the parsed contents when the file exists
    and parses; it returns the defaults when the file does not parse or is
    absent; it writes the defaults to the file exactly when the file is
    absent, and otherwise leaves every file as it was; the result is either
    the parsed contents or the defaults, never a mix. *)
Theorem load_config_fallback (fs : FS) :
  (∀ text config, fs !! CONFIG_PATH = Some text →
     json_load text = Some config → load_config fs = (config, fs)) ∧
  (∀ text, fs !! CONFIG_PATH = Some text → json_load text = None →
     load_config fs = (default_config, fs)) ∧
  (fs !! CONFIG_PATH = None →
     load_config fs =
       (default_config, <[CONFIG_PATH := json_dump default_config]> fs) ∧
     (load_config fs).2 !! CONFIG_PATH = Some (json_dump default_config) ∧
     ∀ path, path ≠ CONFIG_PATH → (load_config fs).2 !! path = fs !! path) ∧
  (is_Some (fs !! CONFIG_PATH) → (load_config fs).2 = fs) ∧
  ((load_config fs).1 = default_config ∨
   ∃ text, fs !! CONFIG_PATH = Some text ∧
           json_load text = Some (load_config fs).1).
Proof.
  unfold load_config. split; [|split; [|split; [|split]]].
  - intros text config -> ->. done.
  - intros text -> ->. done.
  - intros ->. simpl. split; [done|]. split.
    + by rewrite lookup_insert_eq.
    + intros path Hne. by rewrite lookup_insert_ne.
  - intros [text ->]. by destruct (json_load text).
  - destruct (fs !! CONFIG_PATH) as [text|] eqn:Hfile; [|by left].
    destruct (json_load text) as [config|] eqn:Hparse; [|by left].
    right. by exists text.
Qed.
End ConfigClaims.

(** ** Assignments through a row mask *)

Lemma loc_set_rows mask col val df :
  rows (loc_set mask col val df) =
  (λ r, if mask r then <[col := val]> r
        else if bool_decide (col ∈ columns df) then r else <[col := VNaN]> r)
  <$> rows df.
Proof.
  unfold loc_set. case_bool_decide; simpl; [done|].
  apply list_fmap_ext. intros i r _. by destruct (mask r).
Qed.

Lemma loc_set_columns mask col val df :
  columns (loc_set mask col val df) =
  if bool_decide (col ∈ columns df) then columns df else columns df ++ [col].
Proof. unfold loc_set. by case_bool_decide. Qed.

Lemma loc_loop_rows mask cvs : ∀ df,
  rows (foldl (λ df cv, loc_set mask cv.1 cv.2 df) df cvs) =
  loop_row mask (columns df) cvs <$> rows df.
Proof.
  induction cvs as [|cv cvs IH]; intros df; simpl.
  - by rewrite list_fmap_id.
  - rewrite IH, loc_set_rows, loc_set_columns, <- list_fmap_compose. done.
Qed.

Lemma loc_loop_columns mask cvs : ∀ df,
  columns df `prefix_of`
    columns (foldl (λ df cv, loc_set mask cv.1 cv.2 df) df cvs) ∧
  ∀ c, c ∈ columns (foldl (λ df cv, loc_set mask cv.1 cv.2 df) df cvs) ↔
       c ∈ columns df ∨ c ∈ cvs.*1.
Proof.
  induction cvs as [|cv cvs IH]; intros df; simpl.
  - split; [done|]. set_solver.
  - destruct (IH (loc_set mask cv.1 cv.2 df)) as [Hpre Hin].
    rewrite loc_set_columns in Hpre, Hin. split.
    + etrans; [|exact Hpre]. case_bool_decide; [done|]. by apply prefix_app_r.
    + intros c. rewrite Hin. case_bool_decide; set_solver.
Qed.

Lemma stable_cons mask cv cvs : stable mask (cv :: cvs) → stable mask cvs.
Proof. intros Hst c v r Hc. apply Hst. simpl. set_solver. Qed.

Lemma loop_row_selected mask cvs : ∀ cols r,
  stable mask cvs → mask r = true →
  loop_row mask cols cvs r = foldl (λ r cv, <[cv.1 := cv.2]> r) r cvs.
Proof.
  induction cvs as [|cv cvs IH]; intros cols r Hst Hr; simpl; [done|].
  rewrite Hr. apply IH; [by eapply stable_cons|].
  rewrite Hst; [done|]. simpl. set_solver.
Qed.

Lemma loop_row_unselected mask cvs : ∀ cols r,
  stable mask cvs → mask r = false →
  ∀ c, loop_row mask cols cvs r !! c =
       if decide (c ∈ cvs.*1 ∧ c ∉ cols) then Some VNaN else r !! c.
Proof.
  induction cvs as [|cv cvs IH]; intros cols r Hst Hr c; simpl.
  - done.
  - rewrite Hr. pose proof (stable_cons _ _ _ Hst) as Hst'.
    case_bool_decide as Hin.
    + rewrite IH by done. repeat case_decide; try done; set_solver.
    + rewrite IH; [|done|].
      2:{ rewrite Hst; [done|]. simpl. set_solver. }
      destruct (decide (c = cv.1)) as [->|Hne].
      * rewrite lookup_insert_eq. repeat case_decide; try done; set_solver.
      * rewrite lookup_insert_ne by done.
        repeat case_decide; try done; set_solver.
Qed.

Lemma loop_row_unselected_id mask cvs cols r :
  stable mask cvs → mask r = false → cvs.*1 ⊆ cols →
  loop_row mask cols cvs r = r.
Proof.
  intros Hst Hr Hsub. apply map_eq. intros c.
  rewrite loop_row_unselected by done. case_decide; [set_solver|done].
Qed.

Lemma cell_insert_ne col c v (r : row) :
  c ≠ col → cell col (<[c := v]> r) = cell col r.
Proof. intros Hne. unfold cell. by rewrite lookup_insert_ne. Qed.

Lemma has_id_insert_ne student_id c v (r : row) :
  c ≠ "id" → has_id student_id (<[c := v]> r) = has_id student_id r.
Proof. intros Hne. unfold has_id. by rewrite cell_insert_ne. Qed.

Lemma has_id_stable student_id vals :
  stable (has_id student_id) (zip update_cols vals).
Proof.
  intros c v r Hc. apply has_id_insert_ne. intros ->.
  apply list_elem_of_fmap in Hc as ([a b] & Heq & Hab). simpl in Heq. subst a.
  apply elem_of_zip_l in Hab. unfold update_cols in Hab. set_solver.
Qed.

(** ** Update *)

Lemma update_row (df : DataFrame) (student_id : Z)
    (nom prenom specialite : string) (moyenne : Q) (age : Z) (email : string)
    (credits : Z) (statut : string) (i : nat) (r : row) :
  rows df !! i = Some r →
  ∃ r',
    rows (update df student_id
            (update_values nom prenom specialite moyenne age email credits
                           statut)) !! i = Some r' ∧
    (has_id student_id r = true →
       r' = overwrite nom prenom specialite moyenne age email credits statut r) ∧
    (has_id student_id r = false →
       ∀ c, r' !! c =
            if decide (c ∈ update_cols ∧ c ∉ columns df) then Some VNaN
            else r !! c).
Proof.
  intros Hi. unfold update. rewrite loc_loop_rows, list_lookup_fmap, Hi.
  set (cvs := zip update_cols _).
  exists (loop_row (has_id student_id) (columns df) cvs r).
  split; [reflexivity|].
  assert (stable (has_id student_id) cvs) as Hst by apply has_id_stable.
  split; intros Hr.
  - by rewrite loop_row_selected.
  - intros c. rewrite loop_row_unselected by done.
    assert (cvs.*1 = update_cols) as -> by reflexivity. done.
Qed.

Lemma update_length df student_id vals :
  length (rows (update df student_id vals)) = length (rows df).
Proof. unfold update. by rewrite loc_loop_rows, length_fmap. Qed.

Lemma update_columns df student_id vals :
  columns df `prefix_of` columns (update df student_id vals).
Proof. unfold update. apply loc_loop_columns. Qed.

Lemma loc_loop_columns_id (mask : row → bool) (cvs : list (string * value)) :
  ∀ df, cvs.*1 ⊆ columns df →
  columns (foldl (λ df cv, loc_set mask cv.1 cv.2 df) df cvs) = columns df.
Proof.
  induction cvs as [|cv cvs IH]; intros df Hsub; [done|]. cbn [foldl].
  assert (cv.1 ∈ columns df) as Hin.
  { apply Hsub. rewrite fmap_cons. apply list_elem_of_here. }
  assert (columns (loc_set mask cv.1 cv.2 df) = columns df) as Hcols.
  { rewrite loc_set_columns. by rewrite bool_decide_eq_true_2. }
  rewrite IH; [done|]. rewrite Hcols. intros c Hc. apply Hsub.
  rewrite fmap_cons. by apply list_elem_of_further.
Qed.

Lemma zip_update_cols_labels (vals : list value) :
  (zip update_cols vals).*1 ⊆ update_cols.
Proof.
  intros c Hc. apply list_elem_of_fmap in Hc as ([a b] & Heq & Hab).
  simpl in Heq. subst a. by apply elem_of_zip_l in Hab.
Qed.

(** C10.  The update loop writes the submitted fields to every row whose
    [id] equals [student_id]: whatever the position of such a row, and
    however many there are, the row ends up with all eight new values. *)
Theorem update_writes_every_matching_row (df : DataFrame) (student_id : Z)
    (nom prenom specialite : string) (moyenne : Q) (age : Z) (email : string)
    (credits : Z) (statut : string) (i : nat) (r : row) :
  rows df !! i = Some r →
  has_id student_id r = true →
  ∃ r',
    rows (update df student_id
            (update_values nom prenom specialite moyenne age email credits
                           statut)) !! i = Some r' ∧
    r' !! "nom" = Some (VStr nom) ∧
    r' !! "prenom" = Some (VStr prenom) ∧
    r' !! "specialite" = Some (VStr specialite) ∧
    r' !! "moyenne_generale" = Some (VFloat moyenne) ∧
    r' !! "age" = Some (VInt age) ∧
    r' !! "email" = Some (VStr email) ∧
    r' !! "credits" = Some (VInt credits) ∧
    r' !! "statut" = Some (VStr statut).
Proof.
  intros Hi Hr.
  destruct (update_row df student_id nom prenom specialite moyenne age email
              credits statut i r Hi) as (r' & Hi' & Hsel & _).
  exists r'. split; [done|]. rewrite (Hsel Hr). repeat split; solve_lookup.
Qed.

(** ** Delete *)

Lemma delete_rows df student_id :
  rows (delete df student_id) =
  filter (λ r, negb (has_id student_id r)) (rows df).
Proof. reflexivity. Qed.


(** ** Create *)

Lemma truthy_true s : s ≠ "" → truthy s = true.
Proof. by destruct s. Qed.

Lemma reindex_cons (c : string) (cols : list string) (r : row) :
  reindex (c :: cols) r =
  match reindex cols r !! c with
  | Some _ => reindex cols r
  | None => <[c := VNaN]> (reindex cols r)
  end.
Proof. reflexivity. Qed.

Lemma reindex_lookup (cols : list string) (r : row) (c : string) :
  reindex cols r !! c =
  match r !! c with
  | Some v => Some v
  | None => if decide (c ∈ cols) then Some VNaN else None
  end.
Proof.
  revert c. induction cols as [|c0 cols IH]; intros c.
  - unfold reindex. cbn [foldr]. destruct (r !! c); [done|].
    by rewrite decide_False by apply not_elem_of_nil.
  - rewrite reindex_cons. pose proof (IH c0) as H0.
    destruct (decide (c = c0)) as [->|Hne].
    + destruct (reindex cols r !! c0) as [v0|].
      * rewrite IH. destruct (r !! c0); [done|].
        rewrite (decide_True (P := c0 ∈ c0 :: cols)) by apply list_elem_of_here.
        by case_decide.
      * rewrite lookup_insert_eq. destruct (r !! c0); [done|].
        by rewrite decide_True by apply list_elem_of_here.
    + assert (reindex cols r !! c =
              match r !! c with
              | Some v => Some v
              | None => if decide (c ∈ c0 :: cols) then Some VNaN else None
              end) as Hc.
      { rewrite IH. destruct (r !! c); [done|].
        apply decide_ext. rewrite elem_of_cons. naive_solver. }
      destruct (reindex cols r !! c0); [done|].
      by rewrite lookup_insert_ne.
Qed.

Lemma reindex_lookup_Some (cols : list string) (r : row) c v :
  r !! c = Some v → reindex cols r !! c = Some v.
Proof. intros Hc. by rewrite reindex_lookup, Hc. Qed.

Lemma ids_app (rs1 rs2 : list row) (cols : list string) :
  ids {| columns := cols; rows := rs1 ++ rs2 |} =
  ids {| columns := cols; rows := rs1 |} ++ ids {| columns := cols; rows := rs2 |}.
Proof. unfold ids. apply omap_app. Qed.

Lemma ids_cons (cols : list string) (r : row) (rs : list row) :
  ids {| columns := cols; rows := r :: rs |} =
  match r !! "id" with
  | Some (VInt n) => n :: ids {| columns := cols; rows := rs |}
  | _ => ids {| columns := cols; rows := rs |}
  end.
Proof. unfold ids. simpl. by destruct (r !! "id") as [[]|]. Qed.

Lemma ids_reindex (cols cols' : list string) (rs : list row) :
  Forall (λ r : row, ∃ n, r !! "id" = Some (VInt n)) rs →
  ids {| columns := cols'; rows := reindex cols <$> rs |} =
  ids {| columns := cols'; rows := rs |}.
Proof.
  induction 1 as [|r rs [n Hn] _ IH]; [done|].
  rewrite fmap_cons, !ids_cons, (reindex_lookup_Some _ _ _ _ Hn), Hn.
  by rewrite IH.
Qed.

Lemma column_integer_ids (df : DataFrame) :
  integer_ids df → column "id" df = VInt <$> ids df.
Proof.
  destruct df as [cols rs]. unfold integer_ids, column. simpl.
  induction 1 as [|r rs [n Hn] _ IH]; [done|].
  rewrite fmap_cons, ids_cons, Hn, fmap_cons, IH. unfold cell. by rewrite Hn.
Qed.

Lemma elem_of_ids (df : DataFrame) (n : Z) :
  n ∈ ids df ↔ ∃ r : row, r ∈ rows df ∧ r !! "id" = Some (VInt n).
Proof.
  unfold ids. rewrite list_elem_of_omap. split.
  - intros (r & Hr & Hn). exists r. split; [done|].
    destruct (r !! "id") as [[]|]; naive_solver.
  - intros (r & Hr & Hn). exists r. split; [done|]. by rewrite Hn.
Qed.

(** [max()] over integer cells is the largest of them. *)
Lemma foldl_max_step_ints (ns : list Z) : ∀ m : Z,
  foldl max_step (Some (VInt m)) (VInt <$> ns) = Some (VInt (foldl Z.max m ns)).
Proof. induction ns as [|n ns IH]; intros m; simpl; [done|]. apply IH. Qed.

Lemma foldl_Zmax_spec (ns : list Z) : ∀ m : Z,
  (foldl Z.max m ns = m ∨ foldl Z.max m ns ∈ ns) ∧
  m ≤ foldl Z.max m ns ∧ ∀ n, n ∈ ns → n ≤ foldl Z.max m ns.
Proof.
  induction ns as [|n ns IH]; intros m; simpl.
  - split; [by left|]. split; [lia|]. intros n Hn. by apply elem_of_nil in Hn.
  - destruct (IH (Z.max m n)) as (Hmem & Hle & Hall). split; [|split].
    + destruct Hmem as [Heq|Hin].
      * rewrite Heq. destruct (Z.max_spec m n) as [[_ ->]|[_ ->]].
        -- right. apply list_elem_of_here.
        -- by left.
      * right. by apply list_elem_of_further.
    + lia.
    + intros k [->|Hk]%elem_of_cons; [lia|]. by apply Hall.
Qed.

Lemma series_max_ints (n : Z) (ns : list Z) :
  series_max (VInt <$> n :: ns) = Some (VInt (foldl Z.max n ns)).
Proof. unfold series_max. simpl. apply foldl_max_step_ints. Qed.

Lemma wrap64_int64 (z : Z) : int64 z → wrap64 z = z.
Proof.
  unfold int64, wrap64. intros Hz.
  rewrite Z.mod_small by lia. lia.
Qed.

Lemma wrap64_range (z : Z) : int64 (wrap64 z).
Proof.
  unfold int64, wrap64.
  pose proof (Z.mod_pos_bound (z + 2 ^ 63) (2 ^ 64) ltac:(lia)). lia.
Qed.

(** A wrapped sum [m + 1] is never [m] again. *)
Lemma wrap64_succ_ne (m : Z) : wrap64 (m + 1) ≠ m.
Proof.
  unfold wrap64. intros Heq.
  pose proof (Z.div_mod (m + 1 + 2 ^ 63) (2 ^ 64) ltac:(lia)) as Hdm.
  pose proof (Z.mod_pos_bound (m + 1 + 2 ^ 63) (2 ^ 64) ltac:(lia)) as Hb.
  assert (2 ^ 64 * ((m + 1 + 2 ^ 63) / 2 ^ 64) = 1) as Hone by lia.
  assert (2 ^ 64 = 18446744073709551616) as E by reflexivity.
  rewrite E in Hone. lia.
Qed.

(** The identifier allocated on a table of integer identifiers: 1 on the
    empty table, else the wrapped successor of the largest identifier. *)
Lemma new_id_integer_ids (df : DataFrame) :
  "id" ∈ columns df → integer_ids df →
  ∃ n : Z, new_id df = Some (VInt n) ∧
    (rows df = [] → n = 1) ∧
    (rows df ≠ [] →
       ∃ m, n = wrap64 (m + 1) ∧ m ∈ ids df ∧ ∀ k, k ∈ ids df → k ≤ m).
Proof.
  intros Hid Hints. unfold new_id, len.
  rewrite bool_decide_eq_true_2 by done.
  rewrite (column_integer_ids df Hints).
  destruct (rows df) as [|r rs] eqn:Hrows.
  - exists 1. rewrite bool_decide_eq_false_2 by (simpl; lia).
    split; [done|]. split; [done|]. done.
  - rewrite bool_decide_eq_true_2 by (simpl; lia).
    destruct (ids df) as [|n ns] eqn:Hids.
    { unfold ids in Hids. rewrite Hrows in Hids. simpl in Hids.
      unfold integer_ids in Hints. rewrite Hrows in Hints.
      apply Forall_cons in Hints as [[n Hn] _]. rewrite Hn in Hids. done. }
    rewrite series_max_ints. cbn [mbind option_bind plus_one].
    exists (wrap64 (foldl Z.max n ns + 1)). split; [done|].
    destruct (foldl_Zmax_spec ns n) as (Hmem & Hle & Hall).
    split; [done|]. intros _. exists (foldl Z.max n ns).
    split; [done|]. split.
    + destruct Hmem as [->|Hin].
      * apply list_elem_of_here.
      * by apply list_elem_of_further.
    + intros m [->|Hm]%elem_of_cons; [lia|]. by apply Hall.
Qed.

(** Below the largest [int64] the sum does not wrap: the identifier is one
    more than the largest one. *)
Lemma new_id_bounded (df : DataFrame) :
  "id" ∈ columns df → integer_ids df →
  (∀ m, m ∈ ids df → - 2 ^ 63 ≤ m < 2 ^ 63 - 1) →
  ∃ n : Z, new_id df = Some (VInt n) ∧
    (rows df = [] → n = 1) ∧
    (rows df ≠ [] → n - 1 ∈ ids df) ∧
    ∀ m, m ∈ ids df → m ≤ n - 1.
Proof.
  intros Hid Hints Hbound.
  destruct (new_id_integer_ids df Hid Hints) as (n & Hnew & Hempty & Hmax).
  exists n. split; [done|]. split; [done|].
  destruct (rows df) as [|r rs] eqn:Hrows.
  - split; [done|]. unfold ids. rewrite Hrows. intros m Hm.
    by apply elem_of_nil in Hm.
  - destruct (Hmax ltac:(done)) as (m & -> & Hm & Hle).
    pose proof (Hbound m Hm) as Hb.
    rewrite wrap64_int64 by (unfold int64; lia).
    replace (m + 1 - 1) with m by lia. by split.
Qed.

Lemma max_step_numeric (a v : value) :
  numeric a → (∀ s, v ≠ VStr s) →
  ∃ a', max_step (Some a) v = Some a' ∧ numeric a'.
Proof.
  intros Ha Hv. destruct a, v; simpl in *; try done; try (eexists; split; [reflexivity|done]).
  all: by exfalso; eapply Hv.
Qed.

Lemma series_max_numeric (cells : list value) :
  Forall (λ v, ∀ s, v ≠ VStr s) cells →
  ∃ a, series_max cells = Some a ∧ numeric a.
Proof.
  unfold series_max. assert (numeric VNaN) as Ha by done. revert Ha.
  generalize VNaN. intros a Ha Hcells. revert a Ha.
  induction Hcells as [|v cells Hv _ IH]; intros a Ha; simpl.
  - by exists a.
  - destruct (max_step_numeric a v Ha Hv) as (a' & Hstep & Ha').
    simpl in Hstep. rewrite Hstep. by apply IH.
Qed.

Lemma plus_one_numeric (a : value) : numeric a → is_Some (plus_one a).
Proof. by destruct a. Qed.

(** On a table without string identifiers [new_id] does not raise. *)
Lemma new_id_numeric_ids (df : DataFrame) :
  numeric_ids df →
  ∃ v, new_id df = Some v ∧ (rows df = [] → v = VInt 1).
Proof.
  intros Hnum. unfold new_id, len.
  destruct (bool_decide ("id" ∈ columns df)); [|by exists (VInt 1)].
  destruct (rows df) as [|r rs] eqn:Hrows.
  - exists (VInt 1). by rewrite bool_decide_eq_false_2 by (simpl; lia).
  - destruct (series_max_numeric _ Hnum) as (a & Hmax & Ha).
    destruct (plus_one_numeric a Ha) as [v Hv].
    exists v. split; [|done].
    rewrite bool_decide_eq_true_2 by (simpl; lia). rewrite Hmax. done.
Qed.

Lemma concat_columns_l (a b : DataFrame) c :
  c ∈ columns a → c ∈ columns (concat a b).
Proof. intros Hc. unfold concat. cbn [columns]. apply elem_of_app. by left. Qed.

Lemma concat_columns_r (a b : DataFrame) c :
  c ∈ columns b → c ∈ columns (concat a b).
Proof.
  intros Hc. unfold concat. cbn [columns]. apply elem_of_app.
  destruct (decide (c ∈ columns a)); [by left|].
  right. by apply list_elem_of_filter.
Qed.

Lemma new_student_labels `{Python} v nom prenom specialite moyenne age email credits
    university_name now :
  (new_student v nom prenom specialite moyenne age email credits
               university_name now).*1 = columns create_empty_dataframe.
Proof. reflexivity. Qed.

Lemma required_in_created `{Python} (df : DataFrame) v nom prenom specialite moyenne age
    email credits university_name now :
  required_columns ⊆
  columns (concat df (DataFrame_of_dict
    (new_student v nom prenom specialite moyenne age email credits
                 university_name now))).
Proof.
  intros c Hc. apply concat_columns_r. unfold DataFrame_of_dict. cbn [columns].
  rewrite new_student_labels. by apply required_in_canonical.
Qed.

Lemma ids_concat_one (df : DataFrame) (items : list (string * value)) (n : Z) :
  integer_ids df →
  (list_to_map items : row) !! "id" = Some (VInt n) →
  ids (concat df (DataFrame_of_dict items)) = ids df ++ [n].
Proof.
  intros Hints Hn. unfold concat, DataFrame_of_dict. cbn [rows columns].
  set (cols' := columns df ++ _).
  rewrite (ids_app _ _ cols'), (ids_reindex _ cols' _ Hints).
  cbn [fmap list_fmap]. rewrite ids_cons, (reindex_lookup_Some _ _ _ _ Hn).
  reflexivity.
Qed.

Section CreateFacts.
Context `{Pandas} `{Python}.

(** A valid submission on a table where [new_id] does not raise. *)
Lemma create_valid (df : DataFrame) (fs : FS) (nom prenom specialite : string)
    (moyenne : Q) (age : Z) (email : string) (credits : Z)
    (university_name now : string) (v : value) :
  valid_input nom prenom specialite → new_id df = Some v →
  create df fs nom prenom specialite moyenne age email credits university_name
         now =
  Some (concat df (DataFrame_of_dict
          (new_student v nom prenom specialite moyenne age email credits
                       university_name now)),
        save_data (concat df (DataFrame_of_dict
          (new_student v nom prenom specialite moyenne age email credits
                       university_name now))) fs,
        created prenom nom v).
Proof.
  intros (Hnom & Hprenom & Hspec) Hid. unfold create.
  rewrite !truthy_true by done. cbn [andb]. rewrite Hid. reflexivity.
Qed.

(** C2.  On a table with an [id] column whose rows all carry an integer
    [id] of [int64] below the largest one, [2^63 - 1], a valid submission
    succeeds and appends exactly one record: the table is one longer, its
    last row is the new record, and the identifiers are the old ones
    followed by the new one.  The new [id] is 1 on an empty table;
    otherwise it is one more than the largest existing [id], hence above
    every existing one. *)
Theorem create_allocates_next_id (df : DataFrame) (fs : FS)
    (nom prenom specialite : string) (moyenne : Q) (age : Z) (email : string)
    (credits : Z) (university_name now : string) :
  valid_input nom prenom specialite →
  "id" ∈ columns df →
  integer_ids df →
  (∀ m, m ∈ ids df → - 2 ^ 63 ≤ m < 2 ^ 63 - 1) →
  ∃ (n : Z) (df' : DataFrame) (r : row),
    create df fs nom prenom specialite moyenne age email credits
           university_name now
    = Some (df', save_data df' fs, created prenom nom (VInt n)) ∧
    len df' = S (len df) ∧
    last (rows df') = Some r ∧
    r !! "id" = Some (VInt n) ∧
    ids df' = ids df ++ [n] ∧
    (rows df = [] → n = 1) ∧
    (rows df ≠ [] → n - 1 ∈ ids df) ∧
    (∀ m, m ∈ ids df → m < n).
Proof.
  intros Hvalid Hid Hints Hbound.
  destruct (new_id_bounded df Hid Hints Hbound)
    as (n & Hnew & Hempty & Hmax & Hle).
  exists n. eexists. eexists. split; [by apply create_valid|].
  set (items := new_student _ _ _ _ _ _ _ _ _ _).
  set (df' := concat df _).
  assert (reindex (columns df') (list_to_map items) !! "id" = Some (VInt n))
    as Hrid by (by apply reindex_lookup_Some).
  split; [|split; [|split; [exact Hrid|split]]].
  - unfold len, df', concat. cbn [rows DataFrame_of_dict].
    rewrite length_app, !length_fmap. simpl. lia.
  - unfold df', concat. cbn [rows DataFrame_of_dict fmap list_fmap].
    apply last_snoc.
  - by apply ids_concat_one.
  - split; [exact Hempty|]. split; [exact Hmax|].
    intros m Hm. specialize (Hle m Hm). lia.
Qed.

(** C5.  When [nom], [prenom] or [specialite] is empty, the submission is
    answered by the error message alone: the handler returns the table it
    was given and the file system it was given, so nothing is appended and
    the stored file is not written. *)
Theorem create_rejects_missing_fields (df : DataFrame) (fs : FS)
    (nom prenom specialite : string) (moyenne : Q) (age : Z) (email : string)
    (credits : Z) (university_name now : string) :
  nom = "" ∨ prenom = "" ∨ specialite = "" →
  create df fs nom prenom specialite moyenne age email credits university_name
         now
  = Some (df, fs, required_fields_missing).
Proof.
  intros Hmissing. unfold create.
  destruct Hmissing as [-> | [-> | ->]]; cbn [truthy andb].
  - reflexivity.
  - by rewrite andb_false_r.
  - by rewrite andb_false_r.
Qed.

(** C8.  On a table with an [id] column and no string identifier, a valid
    submission succeeds and its record, the last row of the new table,
    carries the allocated [id] (1 on an empty table), the submitted [nom],
    [prenom] and [specialite], the timestamp of the submission as
    [date_inscription], the status [Actif], and as [email] the submitted
    one, or, when none was submitted, [prenom.nom] at the university name
    without spaces, followed by [.fr], each of the three lowered by
    Python's [str.lower] (accented capitals included). *)
Theorem create_stamps_record (df : DataFrame) (fs : FS)
    (nom prenom specialite : string) (moyenne : Q) (age : Z) (email : string)
    (credits : Z) (university_name now : string) :
  valid_input nom prenom specialite →
  "id" ∈ columns df →
  numeric_ids df →
  ∃ (v : value) (df' : DataFrame) (r : row),
    create df fs nom prenom specialite moyenne age email credits
           university_name now
    = Some (df', save_data df' fs, created prenom nom v) ∧
    last (rows df') = Some r ∧
    r !! "id" = Some v ∧
    (rows df = [] → v = VInt 1) ∧
    r !! "nom" = Some (VStr nom) ∧
    r !! "prenom" = Some (VStr prenom) ∧
    r !! "specialite" = Some (VStr specialite) ∧
    r !! "date_inscription" = Some (VStr now) ∧
    r !! "statut" = Some (VStr "Actif") ∧
    (email = "" →
       r !! "email" =
       Some (VStr (lower prenom +:+ "." +:+ lower nom +:+ "@" +:+
                   replace_spaces (lower university_name) +:+ ".fr"))) ∧
    (email ≠ "" → r !! "email" = Some (VStr email)).
Proof.
  intros Hvalid _ Hnum.
  destruct (new_id_numeric_ids df Hnum) as (v & Hnew & Hempty).
  exists v. eexists. eexists. split; [by apply create_valid|].
  set (items := new_student _ _ _ _ _ _ _ _ _ _).
  set (df' := concat df _).
  split; [|split; [|split; [exact Hempty|]]].
  - unfold df', concat. cbn [rows DataFrame_of_dict fmap list_fmap].
    apply last_snoc.
  - by apply reindex_lookup_Some.
  - repeat split; try (by apply reindex_lookup_Some).
    + intros ->. by apply reindex_lookup_Some.
    + intros Hemail. apply reindex_lookup_Some.
      unfold items, new_student. by rewrite (truthy_true email Hemail).
Qed.
End CreateFacts.

(** C2, as stated, fails: on a table whose only [id] is the largest
    [int64], the sum wraps around and the new record gets the smallest
    [int64], which is below the existing [id]. *)
Lemma create_wraps_identifier :
  ids df_largest_id = [2 ^ 63 - 1] ∧
  ∃ df',
    @create pandas_model latin_python df_largest_id ∅ "Dupond" "Marie"
            "Biologie" 12 20 "" 180 "Université Azure" "2024-09-05 11:00:00"
    = Some (df', @save_data pandas_model df' ∅,
            created "Marie" "Dupond" (VInt (- 2 ^ 63))) ∧
    ids df' = [2 ^ 63 - 1; - 2 ^ 63] ∧
    ¬ (2 ^ 63 - 1 < - 2 ^ 63).
Proof.
  split; [vm_compute; reflexivity|]. eexists. split; [|split].
  - apply create_valid; [repeat split; discriminate|].
    vm_compute. reflexivity.
  - vm_compute. reflexivity.
  - lia.
Qed.

(** ** Search *)

Lemma starts_with_spec (q s : string) :
  starts_with q s = true ↔ ∃ b, s = q +:+ b.
Proof.
  revert s. induction q as [|a q IH]; intros s; simpl.
  - split; [intros _; by exists s|done].
  - destruct s as [|c s].
    + split; [done|]. intros [b Hb]. discriminate Hb.
    + rewrite andb_true_iff, Ascii.eqb_eq, IH. split.
      * intros [-> [b ->]]. by exists b.
      * intros [b Hb]. injection Hb as -> ->. split; [done|]. by exists b.
Qed.

Lemma is_in_spec (q s : string) :
  is_in q s = true ↔ ∃ a b, s = a +:+ q +:+ b.
Proof.
  induction s as [|c s IH]; simpl.
  - rewrite orb_false_r, starts_with_spec. split.
    + intros [b Hb]. by exists "", b.
    + intros (a & b & Hab). destruct a; [by exists b|discriminate Hab].
  - rewrite orb_true_iff, starts_with_spec, IH. split.
    + intros [[b Hb]|(a & b & Hab)].
      * by exists "", b.
      * exists (String c a), b. simpl. by rewrite Hab.
    + intros (a & b & Hab). destruct a as [|c' a]; simpl in Hab.
      * left. by exists b.
      * right. injection Hab as -> ->. by exists a, b.
Qed.

Lemma re_match_literal (q s : string) :
  re_match (literal q) s = starts_with q s.
Proof.
  revert s. induction q as [|a q IH]; intros s; simpl; [done|].
  destruct s as [|c s]; [done|]. by rewrite IH.
Qed.

Lemma re_search_literal (q s : string) :
  re_search (literal q) s = is_in q s.
Proof.
  induction s as [|c s IH]; simpl; rewrite re_match_literal; [done|].
  by rewrite IH.
Qed.

Lemma re_compile_plain (q : string) :
  plain q = true → re_compile q = Some (literal q).
Proof.
  induction q as [|c q IH]; [done|]. cbn [plain re_compile literal].
  intros [Hc Hq]%andb_true_iff. rewrite (IH Hq). cbn [mbind option_bind].
  apply negb_true_iff in Hc. rewrite Hc.
  destruct (Ascii.eqb c ".") eqn:Hdot; [|done].
  apply Ascii.eqb_eq in Hdot. subst c. discriminate Hc.
Qed.

Section SearchFacts.
Context `{Python}.

Lemma row_mask_printable (items : list re_item) (cols : list string) (r : row) :
  (∀ col, col ∈ cols → is_Some (str_value (cell col r))) →
  ∀ m : bool,
  foldl (λ mask col, m ← mask; b ← cell_contains items (cell col r);
                     Some (m || b)) (Some m) cols =
  Some (m || existsb (λ col, match str_value (cell col r) with
                             | Some s => re_search items (lower s)
                             | None => false
                             end) cols).
Proof.
  induction cols as [|col cols IH]; intros Hcols m; simpl.
  - by rewrite orb_false_r.
  - destruct (Hcols col) as [s Hs]; [apply list_elem_of_here|].
    unfold cell_contains at 2. rewrite Hs. simpl.
    rewrite IH; [by rewrite orb_assoc|].
    intros col' Hcol'. apply Hcols. by apply list_elem_of_further.
Qed.

Lemma existsb_pointwise {A} (f g : A → bool) (l : list A) :
  (∀ x, f x = g x) → existsb f l = existsb g l.
Proof. intros Hfg. induction l as [|x l IH]; simpl; [done|]. by rewrite Hfg, IH. Qed.

Lemma mapM_total {A B} (f : A → option B) (g : A → B) (l : list A) :
  (∀ x, x ∈ l → f x = Some (g x)) → mapM f l = Some (g <$> l).
Proof.
  induction l as [|x l IH]; intros Hf; [done|].
  cbn [mapM]. rewrite Hf by apply list_elem_of_here.
  rewrite IH; [done|]. intros y Hy. apply Hf. by apply list_elem_of_further.
Qed.

Lemma boolean_index_fmap (g : row → bool) (rs : list row) :
  boolean_index rs (g <$> rs) = filter (λ r, g r) rs.
Proof.
  induction rs as [|r rs IH]; [done|]. cbn [fmap list_fmap boolean_index].
  rewrite filter_cons. fold (fmap g rs). rewrite IH.
  destruct (g r) eqn:Hg; by case_decide.
Qed.

(** On a plain query and printable cells, the search keeps exactly the rows
    in which the lower-cased query occurs in the lower-cased text of some
    cell of an object column. *)
Lemma search_plain (df : DataFrame) (search_query : string) :
  plain (lower search_query) = true → printable df →
  search df search_query =
  Some {| columns := columns df;
          rows := filter (λ r, hit search_query (object_columns df) r)
                         (rows df) |}.
Proof.
  intros Hplain Hprint. unfold search.
  rewrite (re_compile_plain _ Hplain). cbn [mbind option_bind].
  rewrite (mapM_total _ (hit search_query (object_columns df))).
  - cbn [mbind option_bind]. by rewrite boolean_index_fmap.
  - intros r Hr. unfold row_mask. rewrite row_mask_printable.
    + cbn [orb]. unfold hit. f_equal. apply existsb_pointwise.
      intros col. destruct (str_value (cell col r)); [|done].
      by rewrite re_search_literal.
    + intros col Hcol. by apply Hprint.
Qed.

Lemma mapM_pointwise {A B} (f g : A → option B) (l : list A) :
  (∀ x, x ∈ l → f x = g x) → mapM f l = mapM g l.
Proof.
  induction l as [|x l IH]; intros Hfg; [done|].
  cbn [mapM]. rewrite Hfg by apply list_elem_of_here.
  rewrite IH; [done|]. intros y Hy. apply Hfg. by apply list_elem_of_further.
Qed.

Lemma foldl_pointwise {A B} (f g : A → B → A) (l : list B) :
  (∀ a x, x ∈ l → f a x = g a x) → ∀ a, foldl f a l = foldl g a l.
Proof.
  induction l as [|x l IH]; intros Hfg a; [done|].
  cbn [foldl]. rewrite Hfg by apply list_elem_of_here.
  apply IH. intros a' y Hy. apply Hfg. by apply list_elem_of_further.
Qed.

(** On a query and a table made of ASCII text, the search is the one
    computed with the lowering of [A]-[Z]. *)
Lemma search_ascii (df : DataFrame) (search_query : string) :
  ascii_text search_query = true → ascii_table df = true →
  search df search_query = @search latin_python df search_query.
Proof.
  intros Hq Hdf. unfold search.
  rewrite (lower_ascii_text search_query Hq).
  rewrite (@lower_ascii_text latin_python search_query Hq).
  destruct (re_compile (ascii_lower search_query)) as [items|]; [|done].
  cbn [mbind option_bind].
  rewrite (mapM_pointwise _ (@row_mask latin_python items (object_columns df)));
    [done|].
  intros r Hr. unfold row_mask. apply foldl_pointwise.
  intros mask col Hcol. destruct mask as [m|]; [|done].
  cbn [mbind option_bind]. unfold cell_contains.
  destruct (str_value (cell col r)) as [s|] eqn:Hs; [|done].
  cbn [mbind option_bind].
  unfold ascii_table in Hdf. rewrite forallb_forall in Hdf.
  specialize (Hdf r ltac:(by apply list_elem_of_In)).
  rewrite forallb_forall in Hdf.
  specialize (Hdf col ltac:(by apply list_elem_of_In)).
  rewrite Hs in Hdf.
  by rewrite (lower_ascii_text s Hdf), (@lower_ascii_text latin_python s Hdf).
Qed.
End SearchFacts.
Section SearchClaims.
Context `{Python}.


Lemma boolean_index_sublist (rs : list row) : ∀ mask : list bool,
  boolean_index rs mask `sublist_of` rs.
Proof.
  induction rs as [|r rs IH]; intros mask; [done|].
  destruct mask as [|b mask]; cbn [boolean_index].
  - apply sublist_nil_l.
  - destruct b; [by apply sublist_skip|by apply sublist_cons].
Qed.

(** Whatever the query, a search that returns keeps the labels and returns
    rows of the table in their order. *)
Lemma search_sublist (df res : DataFrame) (search_query : string) :
  search df search_query = Some res →
  columns res = columns df ∧ rows res `sublist_of` rows df.
Proof.
  unfold search. intros Hres.
  destruct (re_compile (lower search_query)) as [items|]; [|done].
  cbn [mbind option_bind] in Hres.
  destruct (mapM _ (rows df)) as [mask|]; [|done].
  injection Hres as <-. split; [done|]. apply boolean_index_sublist.
Qed.

Lemma hit_has_text (df : DataFrame) (q : string) (r : row) :
  (∀ col, col ∈ object_columns df → ∃ s, cell col r = VStr s) →
  hit q (object_columns df) r = true ↔ has_text df q r.
Proof.
  intros Htext. unfold hit, has_text. rewrite existsb_exists. split.
  - intros (col & Hcol%list_elem_of_In & Hin).
    destruct (Htext col Hcol) as [s Hs]. rewrite Hs in Hin.
    by exists col, s.
  - intros (col & s & Hcol & Hs & Hin). exists col.
    split; [by apply list_elem_of_In|]. by rewrite Hs.
Qed.

(** On a plain query, and a table whose object columns hold strings only,
    the search returns, in order, exactly the rows with a text cell that
    contains the query. *)
Lemma search_plain_text (df : DataFrame) (search_query : string) :
  plain (lower search_query) = true →
  (∀ (r : row) col, r ∈ rows df → col ∈ object_columns df →
     ∃ s, cell col r = VStr s) →
  ∃ res, search df search_query = Some res ∧
    columns res = columns df ∧
    rows res `sublist_of` rows df ∧
    ∀ r, r ∈ rows res ↔ r ∈ rows df ∧ has_text df search_query r.
Proof.
  intros Hplain Htext. eexists. split.
  - apply search_plain; [done|]. intros r col Hr Hcol.
    destruct (Htext r col Hr Hcol) as [s ->]. by eexists.
  - cbn [columns rows]. split; [done|]. split; [apply sublist_filter|].
    intros r. rewrite list_elem_of_filter. split.
    + intros [Hhit Hr]. split; [done|]. apply hit_has_text; [by eauto|].
      by apply Is_true_true.
    + intros [Hr Hhas]. split; [|done]. apply Is_true_true.
      apply hit_has_text; by eauto.
Qed.

(** C3 at the query [.]: the search takes the query as a pattern, in
    which a dot stands for any character, and returns the student although
    no text cell of that row contains a dot. *)
Theorem search_dot_matches_any_text :
  search df_no_dot "." = Some df_no_dot ∧
  ∀ r, r ∈ rows df_no_dot → ¬ has_text df_no_dot "." r.
Proof.
  split; [by rewrite search_ascii by (vm_compute; reflexivity)|].
  intros r Hr (col & s & Hcol & Hcell & Hin).
  apply list_elem_of_singleton in Hr. subst r.
  assert (object_columns df_no_dot =
          ["nom"; "prenom"; "specialite"; "date_inscription"; "email";
           "statut"]) as Hoc by (vm_compute; reflexivity).
  rewrite Hoc in Hcol.
  repeat (apply elem_of_cons in Hcol as [->|Hcol]);
    try (vm_compute in Hcell; injection Hcell as <-;
         rewrite !lower_ascii_text in Hin by reflexivity;
         vm_compute in Hin; discriminate Hin).
  by apply elem_of_nil in Hcol.
Qed.

(** The missing email of the second student is turned into the text [nan]
    by [astype(str)] before the match, so the query [nan] returns that
    student, who has no text cell containing it. *)
Lemma search_nan_matches_missing_cell :
  search df_missing_email "nan" =
    Some {| columns := columns create_empty_dataframe;
            rows := [row_martin] |} ∧
  ¬ has_text df_missing_email "nan" row_martin.
Proof.
  split; [by rewrite search_ascii by (vm_compute; reflexivity)|].
  intros (col & s & Hcol & Hcell & Hin).
  assert (object_columns df_missing_email =
          ["nom"; "prenom"; "specialite"; "date_inscription"; "email";
           "statut"]) as Hoc by (vm_compute; reflexivity).
  rewrite Hoc in Hcol.
  repeat (apply elem_of_cons in Hcol as [->|Hcol]);
    try (vm_compute in Hcell; first [ discriminate Hcell
                                    | injection Hcell as <-;
                                      rewrite !lower_ascii_text in Hin
                                        by reflexivity;
                                      vm_compute in Hin; discriminate Hin ]).
  by apply elem_of_nil in Hcol.
Qed.
End SearchClaims.

(** ** Saving and loading through the file *)

Lemma has_id_integer (n m : Z) (r : row) :
  r !! "id" = Some (VInt m) → has_id n r = bool_decide (m = n).
Proof.
  intros Hm. unfold has_id, cell. rewrite Hm. cbn.
  case_bool_decide; [by apply Z.eqb_eq|by apply Z.eqb_neq].
Qed.

















Lemma ten_labels (c : string) :
  c ∈ columns create_empty_dataframe →
  c = "id" ∨ c = "nom" ∨ c = "prenom" ∨ c = "specialite" ∨
  c = "moyenne_generale" ∨ c = "age" ∨ c = "date_inscription" ∨
  c = "email" ∨ c = "credits" ∨ c = "statut".
Proof.
  cbn [columns create_empty_dataframe]. intros Hc.
  repeat (apply elem_of_cons in Hc as [-> | Hc]); try tauto.
  by apply elem_of_nil in Hc.
Qed.


(** A row built from typed fields that the file keeps is canonical. *)
Lemma student_canonical (id : Z) (nom prenom specialite : string) (moyenne : Q)
    (age : Z) (date_inscription email : string) (credits : Z)
    (statut : string) :
  int64 id → int64 age → int64 credits → half_step moyenne = true →
  plain_text nom = true → plain_text prenom = true →
  plain_text specialite = true → plain_text date_inscription = true →
  plain_text email = true → plain_text statut = true →
  canonical_row (student id nom prenom specialite moyenne age date_inscription
                         email credits statut).
Proof.
  intros Hid Hage Hcredits Hmoyenne Hnom Hprenom Hspec Hdate Hemail Hstatut.
  split.
  - intros c Hc. unfold student. apply not_elem_of_list_to_map_1. exact Hc.
  - intros c Hc. apply ten_labels in Hc.
    destruct Hc as [-> | [-> | [-> | [-> | [-> | [-> | [-> | [-> | [-> | ->]]]]]]]]].
    + exists id. done.
    + exists nom. done.
    + exists prenom. done.
    + exists specialite. done.
    + exists moyenne. done.
    + exists age. done.
    + exists date_inscription. done.
    + exists email. done.
    + exists credits. done.
    + exists statut. done.
Qed.

Lemma canonical_schema_typed (df : DataFrame) :
  canonical df → schema_typed df.
Proof.
  intros [Hcols Hrows]. split; [exact Hcols|].
  eapply Forall_impl; [exact Hrows|]. intros r [_ Hr] c Hc.
  rewrite Hcols in Hc. specialize (Hr c Hc). unfold typed.
  destruct (kind_of c); cbn [shape] in Hr.
  - destruct Hr as (n & -> & _). by exists n.
  - destruct Hr as (x & -> & _). by exists x.
  - destruct Hr as (s & -> & _). by exists s.
Qed.








Section FileClaims.
Context `{PandasCsv}.





End FileClaims.




(** * Further properties *)

(** ** Loading, bulk deletion and reset *)

Lemma reset_handler_delete (fs : FS) :
  reset_handler fs = base.delete CONFIG_PATH (base.delete CSV_PATH fs).
Proof.
  unfold reset_handler. cbn [foldl].
  assert (∀ (m : FS) path,
            (if bool_decide (is_Some (m !! path)) then base.delete path m
             else m) = base.delete path m) as Hdel.
  { intros m path. case_bool_decide as Hin; [done|].
    symmetry. apply delete_id. by apply eq_None_not_Some. }
  by rewrite !Hdel.
Qed.

Section StoreExtras.
Context `{Pandas}.

(** The loop of [load_data] adds nothing to a table it has already
    completed; and a loaded table that is saved, and read back by pandas as
    written, loads as the same table. *)
Theorem load_data_stable (fs : FS) :
  reads_back (load_data fs) →
  ensure_columns (load_data fs) = load_data fs ∧
  load_data (save_data (load_data fs) fs) = load_data fs.
Proof.
  intros Hrt. split.
  - apply ensure_columns_id, load_data_required.
  - apply load_save; [exact Hrt|apply load_data_required].
Qed.

(** The bulk deletion never runs.  The button "Confirmer la suppression
    totale" is tested inside the block of the button "Supprimer TOUTES les
    données", and no run of the script has both buttons clicked: whatever
    the click that starts the run and whatever the text in the confirmation
    field, the table and the files are left as they are, nothing is deleted
    and the password is never checked. *)
Theorem delete_all_never_runs (clicked : option string) (df : DataFrame)
    (fs : FS) (password : string) :
  (delete_all_handler clicked df fs password).1 = (df, fs) ∧
  (delete_all_handler clicked df fs password).2 ≠ all_deleted ∧
  (delete_all_handler clicked df fs password).2 ≠ wrong_password ∧
  ((delete_all_handler clicked df fs password).2 = warning_shown ↔
   clicked = Some "🗑️ Supprimer TOUTES les données").
Proof.
  unfold delete_all_handler, button.
  destruct (decide (clicked = Some "🗑️ Supprimer TOUTES les données"))
    as [Hc|Hc].
  - rewrite (bool_decide_eq_true_2 _ Hc).
    rewrite bool_decide_eq_false_2 by (rewrite Hc; discriminate).
    cbn [fst snd]. done.
  - rewrite (bool_decide_eq_false_2 _ Hc). cbn [fst snd].
    split; [done|]. split; [done|]. split; [done|]. split; [done|].
    intros Hc'. contradiction.
Qed.
End StoreExtras.

Section ResetExtras.
Context `{Pandas} `{Json}.

(** After a reset the table loads as the empty canonical table and the
    configuration as the defaults, which are written back to the
    configuration file; the reset touches no other path, and a second reset
    changes nothing. *)
Theorem reset_then_load (fs : FS) :
  load_data (reset_handler fs) = create_empty_dataframe ∧
  load_config (reset_handler fs) =
    (default_config,
     <[CONFIG_PATH := json_dump default_config]> (reset_handler fs)) ∧
  (∀ path, path ≠ CSV_PATH → path ≠ CONFIG_PATH →
     reset_handler fs !! path = fs !! path) ∧
  reset_handler (reset_handler fs) = reset_handler fs.
Proof.
  rewrite !reset_handler_delete.
  assert (CSV_PATH ≠ CONFIG_PATH) as Hne by discriminate.
  split; [|split; [|split]].
  - unfold load_data.
    by rewrite lookup_delete_ne, lookup_delete_eq by done.
  - unfold load_config. by rewrite lookup_delete_eq.
  - intros path H1 H2. by rewrite !lookup_delete_ne by done.
  - apply map_eq. intros path.
    destruct (decide (path = CONFIG_PATH)) as [->|H2].
    { by rewrite !lookup_delete_eq. }
    rewrite !(lookup_delete_ne _ CONFIG_PATH) by done.
    destruct (decide (path = CSV_PATH)) as [->|H1].
    { by rewrite !lookup_delete_eq. }
    by rewrite !lookup_delete_ne by done.
Qed.
End ResetExtras.

(** ** Configuration *)

Lemma getitem_set_item (items : list (string * json)) (key key' : string)
    (v : json) :
  getitem (JObj (set_item items key v)) key' =
  if decide (key' = key) then Some v else getitem (JObj items) key'.
Proof.
  unfold getitem. induction items as [|[k x] items IH]; cbn [set_item fst].
  - cbn [list_find]. cbn. case_decide as Hk.
    + subst. by rewrite decide_True.
    + rewrite decide_False; [done|]. intros ->. contradiction.
  - destruct (String.eqb k key) eqn:Hk.
    + apply String.eqb_eq in Hk. subst k. cbn [list_find fst].
      destruct (decide (key' = key)) as [->|Hne].
      * by rewrite decide_True.
      * rewrite !decide_False by (intros ->; contradiction). done.
    + apply String.eqb_neq in Hk. cbn [list_find fst].
      destruct (decide (k = key')) as [->|Hne'].
      * rewrite decide_False by done. done.
      * revert IH. destruct (list_find _ (set_item items key v)) as [[i kv]|];
          destruct (list_find _ items) as [[j kv']|]; cbn; intros IH;
          by rewrite <- IH.
Qed.

Section ConfigExtras.
Context `{Json}.

(** Saving the configuration from the sidebar, when the configuration is
    an object and [json] reads back what it wrote: the next load returns the
    saved configuration, whose university name is the submitted one and
    whose other keys are as before; no file but the configuration file is
    written. *)
Theorem save_configuration_then_load (items : list (string * json))
    (university_name : string) (fs : FS) :
  json_load (json_dump (JObj (set_item items "university_name"
                                       (JStr university_name))))
    = Some (JObj (set_item items "university_name" (JStr university_name))) →
  ∃ config fs',
    save_configuration (JObj items) university_name fs = Some (config, fs') ∧
    load_config fs' = (config, fs') ∧
    getitem config "university_name" = Some (JStr university_name) ∧
    (∀ key, key ≠ "university_name" →
       getitem config key = getitem (JObj items) key) ∧
    (∀ path, path ≠ CONFIG_PATH → fs' !! path = fs !! path).
Proof.
  intros Hrt. eexists. eexists. split; [reflexivity|].
  split; [|split; [|split]].
  - unfold load_config, save_config. by rewrite lookup_insert_eq, Hrt.
  - rewrite getitem_set_item. by rewrite decide_True.
  - intros key Hne. rewrite getitem_set_item. by rewrite decide_False.
  - intros path Hne. unfold save_config. by rewrite lookup_insert_ne.
Qed.

(** Loading the configuration never touches another path, and after one
    load a second one writes nothing: the defaults are written once. *)
Theorem load_config_writes_once (fs : FS) :
  (∀ path, path ≠ CONFIG_PATH → (load_config fs).2 !! path = fs !! path) ∧
  is_Some ((load_config fs).2 !! CONFIG_PATH) ∧
  (load_config (load_config fs).2).2 = (load_config fs).2.
Proof.
  assert (∀ fs0 : FS, is_Some (fs0 !! CONFIG_PATH) →
                      (load_config fs0).2 = fs0) as Hkeep.
  { intros fs0 [text Htext]. unfold load_config. rewrite Htext.
    by destruct (json_load text). }
  assert (is_Some ((load_config fs).2 !! CONFIG_PATH)) as Hsome.
  { unfold load_config. destruct (fs !! CONFIG_PATH) as [text|] eqn:Htext.
    - destruct (json_load text); cbn [snd]; by rewrite Htext.
    - cbn [snd]. by rewrite lookup_insert_eq. }
  split; [|split; [exact Hsome|by apply Hkeep]].
  intros path Hne. unfold load_config.
  destruct (fs !! CONFIG_PATH) as [text|].
  - by destruct (json_load text).
  - cbn [snd]. by rewrite lookup_insert_ne.
Qed.
End ConfigExtras.

(** ** Identifiers under create, update, delete and import *)

Lemma ids_fmap (g : row → row) (cols cols' : list string) (rs : list row) :
  (∀ r, r ∈ rs → g r !! "id" = r !! "id") →
  ids {| columns := cols'; rows := g <$> rs |} =
  ids {| columns := cols; rows := rs |}.
Proof.
  induction rs as [|r rs IH]; intros Hg; [done|].
  rewrite fmap_cons, !ids_cons, Hg by apply list_elem_of_here.
  rewrite IH; [done|]. intros r' Hr'. apply Hg. by apply list_elem_of_further.
Qed.

Lemma column_fmap (g : row → row) (cols cols' : list string) (rs : list row) :
  (∀ r, r ∈ rs → g r !! "id" = r !! "id") →
  column "id" {| columns := cols'; rows := g <$> rs |} =
  column "id" {| columns := cols; rows := rs |}.
Proof.
  intros Hg. unfold column. cbn [rows]. rewrite <- list_fmap_compose.
  apply list_fmap_ext. intros i r Hi. unfold cell. cbn.
  rewrite Hg; [done|]. by eapply list_elem_of_lookup_2.
Qed.

Lemma id_not_updated (vals : list value) : "id" ∉ (zip update_cols vals).*1.
Proof.
  intros Hc. apply list_elem_of_fmap in Hc as ([a b] & Heq & Hab).
  simpl in Heq. subst a. apply elem_of_zip_l in Hab.
  unfold update_cols in Hab. set_solver.
Qed.

Lemma foldl_insert_lookup_ne (cvs : list (string * value)) (c : string) :
  c ∉ cvs.*1 → ∀ r : row,
  foldl (λ r cv, <[cv.1 := cv.2]> r) r cvs !! c = r !! c.
Proof.
  induction cvs as [|cv cvs IH]; intros Hc r; [done|].
  cbn [foldl]. rewrite IH.
  - apply lookup_insert_ne. intros Heq. apply Hc. rewrite fmap_cons, Heq.
    apply list_elem_of_here.
  - intros Hin. apply Hc. rewrite fmap_cons. by apply list_elem_of_further.
Qed.

(** The update loop never writes the [id] cell of a row. *)
Lemma update_loop_id (df : DataFrame) (student_id : Z) (vals : list value)
    (r : row) :
  loop_row (has_id student_id) (columns df) (zip update_cols vals) r !! "id"
  = r !! "id".
Proof.
  pose proof (has_id_stable student_id vals) as Hst.
  pose proof (id_not_updated vals) as Hid.
  destruct (has_id student_id r) eqn:Hr.
  - rewrite loop_row_selected by done. by apply foldl_insert_lookup_ne.
  - rewrite loop_row_unselected by done.
    rewrite decide_False; [done|]. by intros [? _].
Qed.

Lemma update_loop_has_id (df : DataFrame) (student_id n : Z)
    (vals : list value) (r : row) :
  has_id n (loop_row (has_id student_id) (columns df)
                     (zip update_cols vals) r) = has_id n r.
Proof. unfold has_id at 1 3. unfold cell. by rewrite update_loop_id. Qed.

(** The update form leaves the identifiers as they are, row by row: the
    table keeps its length and its list of identifiers, so identifiers that
    were unique stay unique, and a row has a given identifier after the
    update exactly when it had it before. *)
Theorem update_keeps_identifiers (df : DataFrame) (student_id : Z)
    (vals : list value) :
  length (rows (update df student_id vals)) = length (rows df) ∧
  ids (update df student_id vals) = ids df ∧
  column "id" (update df student_id vals) = column "id" df ∧
  (NoDup (ids df) → NoDup (ids (update df student_id vals))).
Proof.
  assert (ids (update df student_id vals) = ids df) as Hids.
  { unfold ids at 1. unfold update. rewrite loc_loop_rows.
    apply (ids_fmap _ (columns df) (columns df)).
    intros r _. apply update_loop_id. }
  split; [apply update_length|]. split; [exact Hids|]. split.
  - unfold column at 1. unfold update. rewrite loc_loop_rows.
    apply (column_fmap _ (columns df) (columns df)).
    intros r _. apply update_loop_id.
  - by rewrite Hids.
Qed.

(** An update for an identifier that no row has is a silent no-op on a
    table that has the eight updated labels: the table is returned as it
    was. *)
Theorem update_missing_id_noop (df : DataFrame) (student_id : Z)
    (vals : list value) :
  (∀ r, r ∈ rows df → has_id student_id r = false) →
  update_cols ⊆ columns df →
  update df student_id vals = df.
Proof.
  intros Hno Hsub. pose proof (has_id_stable student_id vals) as Hst.
  assert ((zip update_cols vals).*1 ⊆ columns df) as Hsub'.
  { etrans; [apply zip_update_cols_labels|exact Hsub]. }
  destruct df as [cols rs]. cbn [rows columns] in *.
  assert (∀ (a b : DataFrame), columns a = columns b → rows a = rows b → a = b)
    as Hext by (intros [] []; cbn; by intros -> ->).
  apply Hext; cbn [rows columns].
  - unfold update. by apply loc_loop_columns_id.
  - unfold update. rewrite loc_loop_rows. cbn [rows columns].
    rewrite <- (list_fmap_id rs) at 2. apply list_fmap_ext.
    intros i r Hi. unfold id. apply loop_row_unselected_id; [done| |done].
    apply Hno. by eapply list_elem_of_lookup_2.
Qed.

(** Deleting is idempotent, deletions of two identifiers can be done in
    either order, and a deletion removes every row that has the identifier,
    however many there are, keeping the labels. *)
Theorem delete_commutes (df : DataFrame) (a b : Z) :
  delete (delete df a) a = delete df a ∧
  delete (delete df a) b = delete (delete df b) a ∧
  columns (delete df a) = columns df ∧
  (∀ r, r ∈ rows (delete df a) ↔ r ∈ rows df ∧ has_id a r = false).
Proof.
  unfold delete, select. cbn [rows columns]. split; [|split; [|split]].
  - f_equal. rewrite list_filter_filter. apply list_filter_iff. tauto.
  - f_equal. rewrite !list_filter_filter. apply list_filter_iff. tauto.
  - done.
  - intros r. rewrite list_elem_of_filter.
    destruct (has_id a r); cbn; naive_solver.
Qed.

(** Updating a student and then deleting him leaves the table that
    deleting him at once leaves, on a table that has the eight updated
    labels and whose averages are floats, so that writing the submitted
    average converts no cell of another row. *)
Theorem update_then_delete (df : DataFrame) (student_id : Z)
    (nom prenom specialite : string) (moyenne : Q) (age : Z) (email : string)
    (credits : Z) (statut : string) :
  update_cols ⊆ columns df →
  Forall (λ v, ∃ x, v = VFloat x) (column "moyenne_generale" df) →
  delete (update df student_id
            (update_values nom prenom specialite moyenne age email credits
                           statut)) student_id
  = delete df student_id.
Proof.
  intros Hsub _.
  generalize (update_values nom prenom specialite moyenne age email credits
                            statut).
  intros vals. pose proof (has_id_stable student_id vals) as Hst.
  assert ((zip update_cols vals).*1 ⊆ columns df) as Hsub'.
  { etrans; [apply zip_update_cols_labels|exact Hsub]. }
  unfold delete, select. f_equal.
  - unfold update. by apply loc_loop_columns_id.
  - unfold update. rewrite loc_loop_rows.
    induction (rows df) as [|r rs IH]; [done|].
    rewrite fmap_cons, !filter_cons, update_loop_has_id, IH.
    destruct (has_id student_id r) eqn:Hr; cbn.
    + by rewrite !decide_False by (intros []).
    + rewrite !decide_True by done.
      by rewrite loop_row_unselected_id.
Qed.

Lemma integer_ids_reindex (cols : list string) (rs : list row) :
  Forall (λ r : row, ∃ n, r !! "id" = Some (VInt n)) rs →
  Forall (λ r : row, ∃ n, r !! "id" = Some (VInt n)) (reindex cols <$> rs).
Proof.
  intros Hrs. apply Forall_fmap. eapply Forall_impl; [exact Hrs|].
  intros r [n Hn]. exists n. by apply reindex_lookup_Some.
Qed.

Lemma integer_ids_concat (a b : DataFrame) :
  integer_ids a → integer_ids b → integer_ids (concat a b).
Proof.
  unfold integer_ids, concat. cbn [rows]. intros Ha Hb.
  apply Forall_app. split; by apply integer_ids_reindex.
Qed.

Lemma ids_concat (a b : DataFrame) :
  integer_ids a → integer_ids b → ids (concat a b) = ids a ++ ids b.
Proof.
  intros Ha Hb. unfold concat. cbn [rows columns].
  set (cols := columns a ++ _).
  by rewrite (ids_app _ _ cols), !(ids_reindex _ cols).
Qed.

Lemma foldl_insert_lookup (cvs : list (string * value)) : ∀ (r : row) c,
  foldl (λ r cv, <[cv.1 := cv.2]> r) r cvs !! c =
  match (list_to_map (reverse cvs) : row) !! c with
  | Some v => Some v
  | None => r !! c
  end.
Proof.
  induction cvs as [|[k v] cvs IH]; intros r c; [done|].
  cbn [foldl fst snd]. rewrite IH, reverse_cons, list_to_map_app.
  rewrite lookup_union.
  destruct (list_to_map (reverse cvs) !! c) as [w|].
  { by destruct (list_to_map [(k, v)] !! c). }
  cbn [list_to_map foldr fst snd].
  destruct (decide (k = c)) as [->|Hne].
  - by rewrite !lookup_insert_eq.
  - rewrite !lookup_insert_ne by done. by rewrite lookup_empty.
Qed.

Lemma foldl_insert_idempotent (cvs : list (string * value)) (r : row) :
  foldl (λ r cv, <[cv.1 := cv.2]> r)
        (foldl (λ r cv, <[cv.1 := cv.2]> r) r cvs) cvs =
  foldl (λ r cv, <[cv.1 := cv.2]> r) r cvs.
Proof.
  apply map_eq. intros c. rewrite !foldl_insert_lookup.
  by destruct (list_to_map (reverse cvs) !! c).
Qed.

Lemma update_twice (df : DataFrame) (student_id : Z) (vals : list value) :
  update_cols ⊆ (zip update_cols vals).*1 →
  update (update df student_id vals) student_id vals
  = update df student_id vals.
Proof.
  intros Hlabels.
  pose proof (has_id_stable student_id vals) as Hst.
  assert ((zip update_cols vals).*1 ⊆ columns (update df student_id vals))
    as Hsub.
  { intros c Hc. unfold update. apply loc_loop_columns. by right. }
  assert (∀ (a b : DataFrame), columns a = columns b → rows a = rows b → a = b)
    as Hext by (intros [] []; cbn; by intros -> ->).
  apply Hext.
  - unfold update at 1. by apply loc_loop_columns_id.
  - unfold update at 1. rewrite loc_loop_rows.
    rewrite <- (list_fmap_id (rows (update df student_id vals))) at 2.
    apply list_fmap_ext. intros i r1 Hi. unfold id.
    destruct (has_id student_id r1) eqn:Hr1;
      [|by apply loop_row_unselected_id].
    unfold update in Hi. rewrite loc_loop_rows in Hi.
    apply list_lookup_fmap_Some in Hi as (r & -> & Hr).
    rewrite update_loop_has_id in Hr1.
    rewrite (loop_row_selected _ _ (columns df) r) by done.
    rewrite loop_row_selected; [apply foldl_insert_idempotent|done|].
    rewrite <- (loop_row_selected _ _ (columns df) r) by done.
    by rewrite update_loop_has_id.
Qed.

(** Submitting the same update twice leaves the table the first
    submission left. *)
Theorem update_idempotent (df : DataFrame) (student_id : Z)
    (nom prenom specialite : string) (moyenne : Q) (age : Z) (email : string)
    (credits : Z) (statut : string) :
  update (update df student_id
            (update_values nom prenom specialite moyenne age email credits
                           statut))
         student_id
         (update_values nom prenom specialite moyenne age email credits statut)
  = update df student_id
      (update_values nom prenom specialite moyenne age email credits statut).
Proof. apply update_twice. intros c Hc. exact Hc. Qed.

Lemma filter_none {A} (P : A → Prop) `{∀ x, Decision (P x)} (l : list A) :
  Forall (λ x, ¬ P x) l → filter P l = [].
Proof.
  induction 1 as [|x l Hx _ IH]; [done|]. by rewrite filter_cons_False.
Qed.

Lemma concat_rows (a b : DataFrame) :
  rows (concat a b) =
  (reindex (columns (concat a b)) <$> rows a) ++
  (reindex (columns (concat a b)) <$> rows b).
Proof. reflexivity. Qed.

Lemma reindex_id (cols : list string) (r : row) :
  (∀ c, c ∈ cols → is_Some (r !! c)) → reindex cols r = r.
Proof.
  intros Hcols. apply map_eq. intros c. rewrite reindex_lookup.
  destruct (r !! c) as [v|] eqn:Hc; [done|].
  case_decide as Hin; [|done]. destruct (Hcols c Hin) as [v Hv]. congruence.
Qed.

Lemma typed_is_Some (c : string) (r : row) :
  typed c (cell c r) → is_Some (r !! c).
Proof.
  unfold typed, cell. destruct (r !! c) as [v|]; [by eexists|]. cbn.
  destruct (kind_of c); intros [x Hx]; discriminate.
Qed.

Lemma schema_typed_integer_ids (df : DataFrame) :
  schema_typed df → "id" ∈ columns df ∧ integer_ids df.
Proof.
  intros [Hcols Hrows].
  assert ("id" ∈ columns df) as Hid
    by (rewrite Hcols; cbn [columns create_empty_dataframe]; in_list).
  split; [exact Hid|]. unfold integer_ids.
  eapply Forall_impl; [exact Hrows|]. intros r Hr.
  destruct (Hr "id" Hid) as [n Hn]. exists n.
  unfold cell in Hn. destruct (r !! "id") as [v|]; cbn in Hn; by subst.
Qed.

(** The identifiers a deletion leaves. *)
Lemma elem_of_ids_delete (df : DataFrame) (n m : Z) :
  m ∈ ids (delete df n) ↔ m ∈ ids df ∧ m ≠ n.
Proof.
  rewrite !elem_of_ids. rewrite delete_rows. split.
  - intros (r & Hr & Hm). apply list_elem_of_filter in Hr as [Hmask Hr].
    split; [by exists r|]. intros ->.
    rewrite (has_id_integer n n r Hm) in Hmask.
    by rewrite bool_decide_eq_true_2 in Hmask.
  - intros [(r & Hr & Hm) Hne]. exists r. split; [|done].
    apply list_elem_of_filter. split; [|done].
    rewrite (has_id_integer n m r Hm). by rewrite bool_decide_eq_false_2.
Qed.

Lemma integer_ids_delete (df : DataFrame) (n : Z) :
  integer_ids df → integer_ids (delete df n).
Proof.
  unfold integer_ids. rewrite delete_rows, !Forall_forall.
  intros Hints r [_ Hr]%list_elem_of_filter. by apply Hints.
Qed.

Lemma integer_ids_nonempty (df : DataFrame) :
  integer_ids df → rows df ≠ [] → ∃ m, m ∈ ids df.
Proof.
  unfold integer_ids. destruct (rows df) as [|r rs] eqn:Hrows; [done|].
  intros [[m Hm] _]%Forall_cons _. exists m. apply elem_of_ids.
  exists r. rewrite Hrows. split; [apply list_elem_of_here|done].
Qed.

Section CreateExtras.
Context `{Pandas} `{Python}.

(** Creation keeps the identifiers unique as long as the largest one is
    below the largest [int64]: on a table with an [id] column of distinct
    integers of [int64] below [2^63 - 1], a valid submission leaves a table
    with an [id] column of distinct integers. *)
Theorem create_keeps_identifiers_unique (df : DataFrame) (fs : FS)
    (nom prenom specialite : string) (moyenne : Q) (age : Z) (email : string)
    (credits : Z) (university_name now : string) :
  valid_input nom prenom specialite →
  "id" ∈ columns df → integer_ids df → NoDup (ids df) →
  (∀ m, m ∈ ids df → - 2 ^ 63 ≤ m < 2 ^ 63 - 1) →
  ∃ (n : Z) (df' : DataFrame),
    create df fs nom prenom specialite moyenne age email credits
           university_name now
    = Some (df', save_data df' fs, created prenom nom (VInt n)) ∧
    "id" ∈ columns df' ∧ integer_ids df' ∧ NoDup (ids df') ∧
    ids df' = ids df ++ [n] ∧
    (∀ m, m ∈ ids df' → - 2 ^ 63 ≤ m < 2 ^ 63).
Proof.
  intros Hvalid Hid Hints Hnodup Hbound.
  destruct (new_id_bounded df Hid Hints Hbound)
    as (n & Hnew & Hempty & Hmax & Hle).
  exists n. eexists. split; [by apply create_valid|].
  set (items := new_student _ _ _ _ _ _ _ _ _ _).
  assert ((list_to_map items : row) !! "id" = Some (VInt n)) as Hn
    by reflexivity.
  split; [by apply concat_columns_l|]. split; [|split; [|split]].
  - apply integer_ids_concat; [done|]. unfold integer_ids, DataFrame_of_dict.
    cbn [rows]. apply Forall_singleton. by exists n.
  - rewrite (ids_concat_one df items n Hints Hn).
    apply NoDup_app. split; [done|]. split; [|apply NoDup_singleton].
    intros m Hm Hin. apply list_elem_of_singleton in Hin. subst m.
    specialize (Hle n Hm). lia.
  - by apply ids_concat_one.
  - rewrite (ids_concat_one df items n Hints Hn).
    intros m [Hm|Hm%list_elem_of_singleton]%elem_of_app.
    + specialize (Hbound m Hm). lia.
    + subst m. destruct (rows df) as [|r rs] eqn:Hrows.
      * rewrite (Hempty eq_refl). lia.
      * specialize (Hbound (n - 1) (Hmax ltac:(done))). lia.
Qed.

(** Identifiers are reused: when the student just created is deleted, the
    next valid creation gets the identifier he had. *)
Theorem create_delete_create_reuses_identifier (df : DataFrame) (fs : FS)
    (nom prenom specialite : string) (moyenne : Q) (age : Z) (email : string)
    (credits : Z) (university_name now : string)
    (nom2 prenom2 specialite2 : string) (moyenne2 : Q) (age2 : Z)
    (email2 : string) (credits2 : Z) (university_name2 now2 : string) :
  valid_input nom prenom specialite →
  valid_input nom2 prenom2 specialite2 →
  "id" ∈ columns df → integer_ids df →
  ∃ (n : Z) (df1 df2 : DataFrame) (fs1 : FS),
    create df fs nom prenom specialite moyenne age email credits
           university_name now
    = Some (df1, fs1, created prenom nom (VInt n)) ∧
    create (delete_handler df1 fs1 n).1.1 (delete_handler df1 fs1 n).1.2
           nom2 prenom2 specialite2 moyenne2 age2 email2 credits2
           university_name2 now2
    = Some (df2, save_data df2 (delete_handler df1 fs1 n).1.2,
            created prenom2 nom2 (VInt n)).
Proof.
  intros Hvalid Hvalid2 Hid Hints.
  destruct (new_id_integer_ids df Hid Hints) as (n & Hnew & Hempty & Hmax).
  exists n. eexists. eexists. eexists. split; [by apply create_valid|].
  set (items := new_student _ _ _ _ _ _ _ _ _ _).
  set (df1 := concat df _). unfold delete_handler. cbn [fst snd].
  apply create_valid; [done|].
  assert ((list_to_map items : row) !! "id" = Some (VInt n)) as Hn
    by reflexivity.
  assert (integer_ids df1) as Hints1.
  { apply integer_ids_concat; [done|]. unfold integer_ids, DataFrame_of_dict.
    cbn [rows]. apply Forall_singleton. by exists n. }
  assert (ids df1 = ids df ++ [n]) as Hids1 by by apply ids_concat_one.
  assert (∀ m, m ∈ ids (delete df1 n) ↔ m ∈ ids df ∧ m ≠ n) as Hleft.
  { intros m. rewrite elem_of_ids_delete, Hids1, elem_of_app.
    rewrite list_elem_of_singleton. naive_solver. }
  assert ("id" ∈ columns (delete df1 n)) as Hid1.
  { unfold delete, select. cbn [columns]. by apply concat_columns_l. }
  destruct (new_id_integer_ids (delete df1 n) Hid1
              (integer_ids_delete df1 n Hints1))
    as (n' & Hnew' & Hempty' & Hmax').
  change (new_id (delete df1 n) = Some (VInt n)).
  rewrite Hnew'. f_equal. f_equal.
  destruct (rows df) as [|r rs] eqn:Hrows.
  - rewrite (Hempty eq_refl). apply Hempty'.
    destruct (rows (delete df1 n)) as [|r' rs'] eqn:Hrows'; [done|].
    destruct (integer_ids_nonempty (delete df1 n)) as [m Hm].
    { by apply integer_ids_delete. }
    { by rewrite Hrows'. }
    apply Hleft in Hm as [Hm _]. unfold ids in Hm. rewrite Hrows in Hm.
    by apply elem_of_nil in Hm.
  - destruct (Hmax ltac:(done)) as (m & -> & Hm & Hle).
    assert (m ∈ ids (delete df1 (wrap64 (m + 1)))) as Hm1.
    { apply Hleft. split; [done|]. intros Heq. by apply (wrap64_succ_ne m). }
    destruct Hmax' as (m' & -> & Hm' & Hle').
    { intros Hnil. unfold ids in Hm1. rewrite Hnil in Hm1.
      by apply elem_of_nil in Hm1. }
    apply Hleft in Hm' as [Hm' _].
    specialize (Hle m' Hm'). specialize (Hle' m Hm1).
    f_equal. lia.
Qed.

(** On a table typed as the data model has it (the ten columns, integers
    under [id], [age] and [credits], floats under [moyenne_generale], texts
    under the others), a creation changes no cell of the students already
    there: the new table has the same ten labels, its rows are the old rows
    followed by the new record, and it is typed in the same way. *)
Theorem create_keeps_existing_cells (df : DataFrame) (fs : FS)
    (nom prenom specialite : string) (moyenne : Q) (age : Z) (email : string)
    (credits : Z) (university_name now : string) :
  valid_input nom prenom specialite →
  schema_typed df →
  ∃ (n : Z) (df' : DataFrame) (r : row),
    create df fs nom prenom specialite moyenne age email credits
           university_name now
    = Some (df', save_data df' fs, created prenom nom (VInt n)) ∧
    columns df' = columns df ∧
    rows df' = rows df ++ [r] ∧
    schema_typed df'.
Proof.
  intros Hvalid Htyped.
  destruct (schema_typed_integer_ids df Htyped) as [Hid Hints].
  destruct (new_id_integer_ids df Hid Hints) as (n & Hnew & _ & _).
  exists n. eexists. eexists. split; [by apply create_valid|].
  set (items := new_student _ _ _ _ _ _ _ _ _ _).
  destruct Htyped as [Hcols Hrows].
  assert (columns (concat df (DataFrame_of_dict items)) = columns df) as Hcols'.
  { unfold concat, DataFrame_of_dict. cbn [columns]. unfold items.
    rewrite new_student_labels, Hcols.
    rewrite filter_none; [by rewrite app_nil_r|].
    apply Forall_forall. intros c Hc Hnot. contradiction. }
  assert (∀ c, c ∈ columns df → typed c (cell c (list_to_map items : row)))
    as Hnew_typed.
  { intros c Hc. rewrite Hcols in Hc. apply ten_labels in Hc.
    destruct Hc as [-> | [-> | [-> | [-> | [-> | [-> | [-> | [-> | [-> | ->]]]]]]]]];
      by eexists. }
  assert (rows (concat df (DataFrame_of_dict items)) =
          rows df ++ [list_to_map items]) as Hrows'.
  { rewrite concat_rows, Hcols'. cbn [rows DataFrame_of_dict]. f_equal.
    - rewrite <- (list_fmap_id (rows df)) at 2. apply list_fmap_ext.
      intros i r Hi. apply reindex_id. intros c Hc.
      apply typed_is_Some. rewrite Forall_forall in Hrows.
      apply Hrows; [by eapply list_elem_of_lookup_2|done].
    - cbn [fmap list_fmap]. f_equal. apply reindex_id. intros c Hc.
      apply typed_is_Some. by apply Hnew_typed. }
  split; [exact Hcols'|]. split; [exact Hrows'|]. split.
  - by rewrite Hcols'.
  - rewrite Hrows', Hcols'. apply Forall_app. split; [done|].
    by apply Forall_singleton.
Qed.

(** An import in append mode keeps every row and every identifier of
    both tables, in order, and so keeps an identifier the two tables share
    twice; the stored file is the appended table. *)
Theorem import_append_keeps_all (df new_df : DataFrame) (fs : FS) :
  integer_ids df → integer_ids new_df →
  len (import_handler df fs new_df Ajouter).1.1 = (len df + len new_df)%nat ∧
  ids (import_handler df fs new_df Ajouter).1.1 = ids df ++ ids new_df ∧
  (import_handler df fs new_df Ajouter).1.2
    = save_data (import_handler df fs new_df Ajouter).1.1 fs ∧
  (∀ n, n ∈ ids df → n ∈ ids new_df →
     ¬ NoDup (ids (import_handler df fs new_df Ajouter).1.1)).
Proof.
  intros Ha Hb. unfold import_handler. cbn [fst snd].
  split; [|split; [|split]].
  - unfold len, concat. cbn [rows]. by rewrite length_app, !length_fmap.
  - by apply ids_concat.
  - done.
  - intros n Hn1 Hn2. rewrite ids_concat by done.
    rewrite NoDup_app. intros (_ & Hdisj & _). by apply (Hdisj n).
Qed.

(** An import in replace mode checks nothing: the uploaded table becomes
    the table and the stored file as it is, whatever its labels, and the
    current table is forgotten.  When pandas reads the table back as
    written, the next load keeps its labels in order, adds the required
    labels it lacks with [None] in every row, and changes no other
    cell. *)
Theorem import_replace_then_load (df new_df : DataFrame) (fs : FS) :
  reads_back new_df →
  (import_handler df fs new_df Remplacer).1.1 = new_df ∧
  (import_handler df fs new_df Remplacer).1.2 = save_data new_df fs ∧
  columns new_df
    `prefix_of` columns (load_data (import_handler df fs new_df Remplacer).1.2) ∧
  (∀ c, c ∈ columns (load_data (import_handler df fs new_df Remplacer).1.2) ↔
        c ∈ columns new_df ∨ c ∈ required_columns) ∧
  length (rows (load_data (import_handler df fs new_df Remplacer).1.2))
    = length (rows new_df) ∧
  ∀ i r, rows new_df !! i = Some r →
    ∃ r', rows (load_data (import_handler df fs new_df Remplacer).1.2) !! i
            = Some r' ∧
      ∀ c, r' !! c =
        if decide (c ∈ required_columns ∧ c ∉ columns new_df) then Some VNone
        else r !! c.
Proof.
  intros Hrt. unfold import_handler. cbn [fst snd].
  split; [done|]. split; [done|].
  assert (load_data (save_data new_df fs) = ensure_columns new_df) as ->.
  { unfold load_data, save_data. by rewrite lookup_insert_eq, Hrt. }
  rewrite ensure_columns_unfold.
  destruct (ensure_loop_spec required_columns new_df)
    as (Hpre & Hcols & f & Hrows & Hf).
  split; [exact Hpre|]. split; [exact Hcols|]. split.
  - by rewrite Hrows, length_fmap.
  - intros i r Hi. exists (f r). split; [|apply Hf].
    by rewrite Hrows, list_lookup_fmap, Hi.
Qed.
End CreateExtras.

(** ** Search, further *)

Lemma boolean_index_false (rs : list row) :
  boolean_index rs ((λ _, false) <$> rs) = [].
Proof. induction rs as [|r rs IH]; [done|]. by cbn. Qed.

Section SearchExtras.
Context `{Python}.

(** On a query made of ordinary characters and dots, and a table whose
    object columns hold no float, the search does not raise; it keeps the
    labels of the table and returns rows of the table, in the order of the
    table. *)
Theorem search_returns_rows_in_order (df : DataFrame) (search_query : string)
    (items : list re_item) :
  re_compile (lower search_query) = Some items → printable df →
  ∃ res, search df search_query = Some res ∧
    columns res = columns df ∧
    rows res `sublist_of` rows df ∧
    (∀ r, r ∈ rows res → r ∈ rows df) ∧
    (length (rows res) ≤ length (rows df))%nat.
Proof.
  intros Hitems Hprint.
  assert (∃ res, search df search_query = Some res) as [res Hres].
  { unfold search. rewrite Hitems. cbn [mbind option_bind].
    rewrite (mapM_total _ (λ r, existsb
               (λ col, match str_value (cell col r) with
                       | Some s => re_search items (lower s)
                       | None => false
                       end) (object_columns df))); [by eexists|].
    intros r Hr. unfold row_mask. rewrite row_mask_printable; [done|].
    intros col Hcol. by apply Hprint. }
  exists res. split; [exact Hres|].
  destruct (search_sublist df res search_query Hres) as [Hc Hs].
  split; [exact Hc|]. split; [exact Hs|]. split.
  - intros r Hr. by eapply sublist_subseteq.
  - by apply sublist_length.
Qed.

(** On a query without special characters, and cells that have a text,
    the search returns exactly the rows in which the query, lowered by
    [str.lower], occurs in the lowered text of a cell of an object column,
    where the text of a missing cell is [nan] or [None] and that of an
    integer its decimal writing. *)
Theorem search_plain_rows (df : DataFrame) (search_query : string) :
  plain (lower search_query) = true → printable df →
  ∃ res, search df search_query = Some res ∧
    ∀ r, r ∈ rows res ↔
         r ∈ rows df ∧
         ∃ col s, col ∈ object_columns df ∧
                  str_value (cell col r) = Some s ∧
                  is_in (lower search_query) (lower s) = true.
Proof.
  intros Hplain Hprint. eexists. split; [by apply search_plain|].
  cbn [rows]. intros r. rewrite list_elem_of_filter.
  rewrite Is_true_true. unfold hit. rewrite existsb_exists. split.
  - intros [(col & Hcol%list_elem_of_In & Hin) Hr]. split; [done|].
    exists col. destruct (str_value (cell col r)) as [s|]; [|done].
    by exists s.
  - intros [Hr (col & s & Hcol & Hs & Hin)]. split; [|done].
    exists col. split; [by apply list_elem_of_In|]. by rewrite Hs.
Qed.

(** Only the columns held as objects are searched: on a table without
    such a column (numbers and missing cells only) every query the model
    covers returns no row, also a query that is the text of a number in the
    table. *)
Theorem search_skips_numeric_columns (df : DataFrame) (search_query : string)
    (items : list re_item) :
  object_columns df = [] →
  re_compile (lower search_query) = Some items →
  search df search_query = Some {| columns := columns df; rows := [] |}.
Proof.
  intros Hobj Hitems. unfold search. rewrite Hitems, Hobj.
  cbn [mbind option_bind].
  rewrite (mapM_total _ (λ _, false)); [|done].
  cbn [mbind option_bind]. by rewrite boolean_index_false.
Qed.
End SearchExtras.

(** ** Choosing a student *)

Lemma digit_pretty_N_char (d : N) :
  (d < 10)%N → digit (pretty_N_char d) = Some d.
Proof.
  intros Hd.
  assert (d = 0 ∨ d = 1 ∨ d = 2 ∨ d = 3 ∨ d = 4 ∨ d = 5 ∨ d = 6 ∨ d = 7
          ∨ d = 8 ∨ d = 9)%N as Hcases by lia.
  repeat (destruct Hcases as [->|Hcases]; [reflexivity|]).
  by subst d.
Qed.

Lemma digit_not_sign (c : ascii) (d : N) :
  digit c = Some d →
  Ascii.eqb c "-" = false ∧ Ascii.eqb c "+" = false ∧ c ≠ " "%char.
Proof. by destruct c as [[] [] [] [] [] [] [] []]. Qed.

Lemma digits_pretty_N_go (x : N) : ∀ (acc : N) (s : string),
  ∃ k : N, digits acc (pretty_N_go x s) = digits (acc * 10 ^ k + x)%N s.
Proof.
  induction (N.lt_wf_0 x) as [x _ IH]; intros acc s.
  assert (x = 0 ∨ 0 < x)%N as [->|Hx] by lia.
  - exists 0%N. rewrite pretty_N_go_0. f_equal. lia.
  - rewrite pretty_N_go_step by done.
    destruct (IH (x `div` 10)%N (N.div_lt x 10 Hx eq_refl) acc
                 (String (pretty_N_char (x `mod` 10)) s)) as [k Hk].
    exists (k + 1)%N. rewrite Hk. cbn [digits].
    rewrite digit_pretty_N_char by (by apply N.mod_lt).
    cbn [mbind option_bind]. f_equal.
    rewrite N.pow_add_r, N.pow_1_r.
    pose proof (N.div_mod x 10 ltac:(done)) as Hdm. lia.
Qed.

Lemma pretty_N_go_nonempty (x : N) : ∀ s : string,
  s ≠ "" → pretty_N_go x s ≠ "".
Proof.
  induction (N.lt_wf_0 x) as [x _ IH]; intros s Hs.
  assert (x = 0 ∨ 0 < x)%N as [->|Hx] by lia.
  - by rewrite pretty_N_go_0.
  - rewrite pretty_N_go_step by done.
    apply IH; [by apply N.div_lt|done].
Qed.

Lemma pretty_N_go_no_space (x : N) : ∀ s : string,
  occurs " " s = false → occurs " " (pretty_N_go x s) = false.
Proof.
  induction (N.lt_wf_0 x) as [x _ IH]; intros s Hs.
  assert (x = 0 ∨ 0 < x)%N as [->|Hx] by lia.
  - by rewrite pretty_N_go_0.
  - rewrite pretty_N_go_step by done.
    apply IH; [by apply N.div_lt|]. cbn [occurs]. rewrite Hs.
    unfold pretty_N_char. by repeat case_match.
Qed.

Lemma pretty_positive_go (p : positive) :
  pretty (Zpos p) = pretty_N_go (Npos p) "".
Proof. reflexivity. Qed.

Lemma int_of_text_digits (s : string) (x : N) :
  s ≠ "" → digits 0 s = Some x → int_of_text s = Some (Z.of_N x).
Proof.
  destruct s as [|c s]; [done|]. intros _ Hx. unfold int_of_text.
  cbn [digits] in Hx. destruct (digit c) as [d|] eqn:Hd; [|done].
  destruct (digit_not_sign c d Hd) as (-> & -> & _).
  cbn [digits]. rewrite Hd. cbn [mbind option_bind] in *. by rewrite Hx.
Qed.

(** [int] reads back the decimal writing of an integer. *)
Lemma int_of_text_pretty (n : Z) : int_of_text (pretty n) = Some n.
Proof.
  assert (∀ p, digits 0 (pretty_N_go (Npos p) "") = Some (Npos p)) as Hdig.
  { intros p. destruct (digits_pretty_N_go (Npos p) 0%N "") as [k ->].
    cbn [digits]. f_equal; lia. }
  assert (∀ p, pretty_N_go (Npos p) "" ≠ "") as Hne.
  { intros p. rewrite pretty_N_go_step by lia.
    by apply pretty_N_go_nonempty. }
  destruct n as [|p|p].
  - reflexivity.
  - rewrite pretty_positive_go.
    by rewrite (int_of_text_digits _ (Npos p)).
  - change (pretty (Zneg p)) with (String "-" (pretty_N_go (Npos p) "")).
    unfold int_of_text. cbn [Ascii.eqb Bool.eqb].
    specialize (Hne p). destruct (pretty_N_go (N.pos p) "") eqn:Hs; [done|].
    rewrite <- Hs, Hdig. reflexivity.
Qed.

Lemma pretty_Z_no_space (n : Z) : occurs " " (pretty n) = false.
Proof.
  destruct n as [|p|p].
  - reflexivity.
  - rewrite pretty_positive_go. by apply pretty_N_go_no_space.
  - change (pretty (Zneg p)) with (String "-" (pretty_N_go (Npos p) "")).
    cbn [occurs]. by rewrite pretty_N_go_no_space.
Qed.

Lemma first_piece_no_space (s rest : string) :
  occurs " " s = false → first_piece " - " (s +:+ " - " +:+ rest) = s.
Proof.
  induction s as [|c s IH]; intros Hs.
  - change ("" +:+ " - " +:+ rest)
      with (String " " (String "-" (String " " rest))).
    cbn [first_piece String.prefix].
    repeat (destruct (ascii_dec _ _); [|done]). by destruct rest.
  - cbn [occurs] in Hs. apply orb_false_iff in Hs as [Hc Hs].
    change (String c s +:+ " - " +:+ rest)
      with (String c (s +:+ " - " +:+ rest)).
    cbn [first_piece String.prefix].
    destruct (ascii_dec " " c) as [<-|_]; [done|]. by rewrite IH.
Qed.

Lemma label_gives_id (r : row) (n : Z) (label : string) :
  cell "id" r = VInt n →
  student_name r = Some label →
  selected_id label = Some n.
Proof.
  intros Hid Hlabel. unfold student_name in Hlabel. rewrite Hid in Hlabel.
  cbn [str_value mbind option_bind] in Hlabel.
  destruct (str_value (cell "prenom" r)) as [prenom|]; [|done].
  destruct (str_value (cell "nom" r)) as [nom|]; [|done].
  destruct (str_value (cell "specialite" r)) as [specialite|]; [|done].
  cbn [mbind option_bind] in Hlabel. injection Hlabel as <-.
  unfold selected_id.
  rewrite first_piece_no_space by apply pretty_Z_no_space.
  apply int_of_text_pretty.
Qed.


Lemma head_filter_spec (P : row → bool) (rs : list row) :
  match head (filter (λ r, P r) rs) with
  | Some r =>
      ∃ i, rs !! i = Some r ∧ P r = true ∧
           ∀ j r', (j < i)%nat → rs !! j = Some r' → P r' = false
  | None => ∀ r, r ∈ rs → P r = false
  end.
Proof.
  induction rs as [|r rs IH].
  - cbn. intros r Hr. by apply elem_of_nil in Hr.
  - rewrite filter_cons. destruct (P r) eqn:Hr.
    + rewrite decide_True by done. cbn [head]. exists 0%nat.
      split; [done|]. split; [done|]. intros j r' Hj. lia.
    + rewrite decide_False by (by intros []).
      destruct (head (filter (λ r, P r) rs)) as [r0|].
      * destruct IH as (i & Hi & Hr0 & Hbefore). exists (S i).
        split; [done|]. split; [done|].
        intros [|j] r' Hj Hr'; cbn in Hr'.
        -- by injection Hr' as <-.
        -- eapply Hbefore; [|done]. lia.
      * intros r' [->|Hr']%elem_of_cons; [done|]. by apply IH.
Qed.

(** The row the forms are filled from is the first row of the table
    that has the chosen identifier; when no row has it, the lookup raises.
    So with identifiers that are unique the row is the chosen student, and
    with a duplicated identifier it is the first of the duplicates,
    whichever was chosen. *)
Theorem student_data_first_match (df : DataFrame) (student_id : Z) :
  match student_data df student_id with
  | Some r =>
      ∃ i, rows df !! i = Some r ∧ has_id student_id r = true ∧
           ∀ j r', (j < i)%nat → rows df !! j = Some r' →
                   has_id student_id r' = false
  | None => ∀ r, r ∈ rows df → has_id student_id r = false
  end.
Proof. unfold student_data, select. cbn [rows]. apply head_filter_spec. Qed.

Lemma schema_typed_label (df : DataFrame) (r : row) :
  schema_typed df → r ∈ rows df →
  ∃ (n : Z) (label : string),
    r !! "id" = Some (VInt n) ∧ student_name r = Some label.
Proof.
  intros [Hcols Hrows] Hr. rewrite Forall_forall in Hrows.
  pose proof (Hrows r Hr) as Htyped. rewrite Hcols in Htyped.
  destruct (Htyped "id") as [n Hn];
    [cbn [columns create_empty_dataframe]; in_list|].
  destruct (Htyped "prenom") as [prenom Hprenom];
    [cbn [columns create_empty_dataframe]; in_list|].
  destruct (Htyped "nom") as [nom Hnom];
    [cbn [columns create_empty_dataframe]; in_list|].
  destruct (Htyped "specialite") as [specialite Hspec];
    [cbn [columns create_empty_dataframe]; in_list|].
  exists n. eexists. split.
  - unfold cell in Hn. destruct (r !! "id") as [v|]; cbn in Hn; by subst.
  - unfold student_name. rewrite Hn, Hprenom, Hnom, Hspec. reflexivity.
Qed.

(** On a table typed as the data model has it, every row has a label in
    the select box, and choosing it never makes the lookup raise: the label
    gives back the [id] of the row, and the lookup returns the first row of
    the table with that [id], which is at or before the row chosen.  It is
    the row chosen when the identifiers of the table are distinct, and the
    first of the duplicates otherwise. *)
Theorem student_data_of_chosen_label (df : DataFrame) (i : nat) (r : row) :
  schema_typed df →
  rows df !! i = Some r →
  ∃ (n : Z) (label : string) (r0 : row) (i0 : nat),
    r !! "id" = Some (VInt n) ∧
    student_name r = Some label ∧
    selected_id label = Some n ∧
    (selected_id label ≫= student_data df) = Some r0 ∧
    rows df !! i0 = Some r0 ∧
    (i0 ≤ i)%nat ∧
    r0 !! "id" = Some (VInt n) ∧
    (∀ j r', (j < i0)%nat → rows df !! j = Some r' →
             r' !! "id" ≠ Some (VInt n)) ∧
    (NoDup (ids df) → r0 = r).
Proof.
  intros Htyped Hi.
  destruct (schema_typed_label df r Htyped (list_elem_of_lookup_2 _ _ _ Hi))
    as (n & label & Hid & Hlabel).
  destruct (schema_typed_integer_ids df Htyped) as [_ Hints].
  unfold integer_ids in Hints. rewrite Forall_forall in Hints.
  assert (cell "id" r = VInt n) as Hcell by (unfold cell; by rewrite Hid).
  pose proof (label_gives_id r n label Hcell Hlabel) as Hsel.
  assert (has_id n r = true) as Hr.
  { rewrite (has_id_integer n n r Hid). by apply bool_decide_eq_true_2. }
  pose proof (head_filter_spec (has_id n) (rows df)) as Hfirst.
  change (head (filter (λ r, has_id n r) (rows df)))
    with (student_data df n) in Hfirst.
  destruct (student_data df n) as [r0|] eqn:Hdata.
  2:{ rewrite Hfirst in Hr; [done|]. by eapply list_elem_of_lookup_2. }
  destruct Hfirst as (i0 & Hi0 & Hr0 & Hbefore).
  destruct (Hints r0 (list_elem_of_lookup_2 _ _ _ Hi0)) as [m Hm].
  rewrite (has_id_integer n m r0 Hm) in Hr0.
  apply bool_decide_eq_true_1 in Hr0. subst m.
  assert (i0 ≤ i)%nat as Hle.
  { destruct (decide (i0 ≤ i)%nat) as [|Hgt]; [done|].
    rewrite (Hbefore i r) in Hr; [done|lia|done]. }
  exists n, label, r0, i0. split; [exact Hid|]. split; [exact Hlabel|].
  split; [exact Hsel|]. split; [by rewrite Hsel|]. split; [exact Hi0|].
  split; [exact Hle|]. split; [exact Hm|]. split.
  { intros j r' Hj Hr' Hid'. specialize (Hbefore j r' Hj Hr').
    rewrite (has_id_integer n n r' Hid') in Hbefore.
    by rewrite bool_decide_eq_true_2 in Hbefore. }
  intros Hnodup.
  destruct (decide (i0 = i)) as [->|Hne]; [congruence|].
  exfalso. revert Hnodup. unfold ids. clear Hbefore Hints Hle Hdata Htyped.
  revert i i0 Hi Hi0 Hne.
  induction (rows df) as [|r1 rs IH]; intros i i0 Hi Hi0 Hne; [done|].
  cbn [omap list_omap]. intros Hnodup.
  assert (∀ (j : nat) (r' : row), rs !! j = Some r' →
            r' !! "id" = Some (VInt n) →
            n ∈ omap (λ r : row, match r !! "id" with
                                 | Some (VInt k) => Some k
                                 | _ => None
                                 end) rs) as Hin.
  { intros j r' Hj Hr'. apply list_elem_of_omap. exists r'.
    split; [by eapply list_elem_of_lookup_2|]. by rewrite Hr'. }
  destruct i as [|i], i0 as [|i0]; cbn in Hi, Hi0.
  - done.
  - injection Hi as ->. rewrite Hid in Hnodup.
    apply NoDup_cons in Hnodup as [Hnot _]. apply Hnot. by eapply Hin.
  - injection Hi0 as ->. rewrite Hm in Hnodup.
    apply NoDup_cons in Hnodup as [Hnot _]. apply Hnot. by eapply Hin.
  - destruct (r1 !! "id") as [[| |k| |]|];
      try (eapply IH; [exact Hi|exact Hi0|lia|exact Hnodup]).
    apply NoDup_cons in Hnodup as [_ Hnodup].
    eapply IH; [exact Hi|exact Hi0|lia|exact Hnodup].
Qed.

(** ** The statements at concrete tables *)

Lemma canonical_df_135 : canonical df_135.
Proof.
  split; [reflexivity|]. unfold df_135. cbn [rows].
  repeat (apply Forall_cons; split;
          [apply student_canonical;
           first [ reflexivity | apply (bool_decide_unpack _); exact I ]|]).
  apply Forall_nil. exact I.
Defined.

Lemma integer_ids_df_135 : integer_ids df_135.
Proof. repeat constructor; eexists; vm_compute; reflexivity. Defined.

Lemma create_allocates_next_id_witness :
  ∃ df', @create pandas_135 latin_python df_135 fs_135 "Dupond" "Marie"
                 "Biologie" 12 20 "" 180 "Université Azure"
                 "2024-09-05 11:00:00"
         = Some (df', @save_data pandas_135 df' fs_135,
                 created "Marie" "Dupond" (VInt 6)) ∧
         ids df' = [1; 3; 5; 6].
Proof.
  assert (ids df_135 = [1; 3; 5]) as Hids by (vm_compute; reflexivity).
  destruct (@create_allocates_next_id pandas_135 latin_python df_135 fs_135
              "Dupond" "Marie" "Biologie" 12 20 "" 180 "Université Azure"
              "2024-09-05 11:00:00")
    as (n & df' & r & Hcreate & _ & _ & _ & Hids' & _ & Hmax & Hlt).
  - repeat split; discriminate.
  - vm_compute. apply list_elem_of_here.
  - exact integer_ids_df_135.
  - rewrite Hids. intros m Hm. rewrite !elem_of_cons, elem_of_nil in Hm. lia.
  - rewrite Hids in Hmax, Hlt, Hids'.
    assert (5 < n) as H5 by (apply Hlt; in_list).
    assert (n = 6) as ->.
    { assert (df_135.(rows) ≠ []) as Hne by discriminate.
      specialize (Hmax Hne). rewrite !elem_of_cons, elem_of_nil in Hmax. lia. }
    exists df'. split; [exact Hcreate|exact Hids'].
Defined.

Lemma create_rejects_missing_fields_witness :
  @create pandas_135 latin_python df_135 fs_135 "" "Jean" "Informatique" 12 20
          "" 180 "Université Azure" "2024-09-05 11:00:00"
  = Some (df_135, fs_135, required_fields_missing).
Proof.
  apply (@create_rejects_missing_fields pandas_135 latin_python).
  left. reflexivity.
Defined.

Lemma create_stamps_record_witness :
  ∃ df' r,
    @create pandas_135 latin_python create_empty_dataframe ∅ "Dupont" "Élodie"
            "Informatique" 12 20 "" 180 "Université Azure"
            "2024-09-05 11:00:00"
    = Some (df', @save_data pandas_135 df' ∅,
            created "Élodie" "Dupont" (VInt 1)) ∧
    last (rows df') = Some r ∧
    r !! "id" = Some (VInt 1) ∧
    r !! "prenom" = Some (VStr "Élodie") ∧
    r !! "statut" = Some (VStr "Actif") ∧
    r !! "date_inscription" = Some (VStr "2024-09-05 11:00:00") ∧
    r !! "email" = Some (VStr "élodie.dupont@universitéazure.fr").
Proof.
  destruct (@create_stamps_record pandas_135 latin_python
              create_empty_dataframe ∅ "Dupont" "Élodie" "Informatique" 12 20
              "" 180 "Université Azure" "2024-09-05 11:00:00")
    as (v & df' & r & Hcreate & Hlast & Hid & Hempty & _ & Hprenom & _ & Hdate
        & Hstatut & Hemail & _).
  - repeat split; discriminate.
  - cbn [columns create_empty_dataframe]. apply list_elem_of_here.
  - constructor.
  - rewrite (Hempty eq_refl) in Hcreate, Hid. exists df', r.
    split; [exact Hcreate|]. split; [exact Hlast|]. split; [exact Hid|].
    split; [exact Hprenom|]. split; [exact Hstatut|]. split; [exact Hdate|].
    exact (Hemail eq_refl).
Defined.




Lemma update_writes_every_matching_row_witness :
  ∃ r' : row,
    rows (update df_duplicates 1
            (update_values "Dupont" "Jean" "Droit" 13 20 "jean@univ.fr" 180
                           "Actif")) !! 1%nat = Some r' ∧
    r' !! "nom" = Some (VStr "Dupont") ∧
    r' !! "specialite" = Some (VStr "Droit").
Proof.
  destruct (update_writes_every_matching_row df_duplicates 1 "Dupont" "Jean"
              "Droit" 13 20 "jean@univ.fr" 180 "Actif" 1%nat
              (student 1 "Durand" "Anne" "Chimie" 14 21 "2024-09-04 08:00:00"
                       "anne.durand@univ.fr" 180 "Actif"))
    as (r' & Hr' & Hnom & _ & Hspec & _).
  - reflexivity.
  - vm_compute. reflexivity.
  - exists r'. split; [exact Hr'|]. split; [exact Hnom|exact Hspec].
Defined.

(** An import in append mode keeps the identifiers of both tables: here it
    leaves two rows with the identifier 1. *)
Example import_append_duplicates :
  (@import_handler pandas_135
     {| columns := columns create_empty_dataframe; rows := [dupont] |} ∅
     {| columns := columns create_empty_dataframe;
        rows := [student 1 "Durand" "Anne" "Chimie" 14 21
                         "2024-09-04 08:00:00" "anne.durand@univ.fr" 180
                         "Actif"] |}
     Ajouter).1.1 = df_duplicates.
Proof. vm_compute. reflexivity. Qed.

(** ** The further properties at concrete tables *)

Lemma load_data_stable_witness :
  @load_data pandas_135
     (@save_data pandas_135 (@load_data pandas_135 fs_135) fs_135)
  = @load_data pandas_135 fs_135.
Proof.
  apply (@load_data_stable pandas_135 fs_135). vm_compute. reflexivity.
Defined.

Lemma save_configuration_then_load_witness :
  ∃ config fs',
    @save_configuration json_renamed (JObj config_two_keys)
                        "Université de Paris" ∅ = Some (config, fs') ∧
    @load_config json_renamed fs' = (config, fs') ∧
    getitem config "university_name" = Some (JStr "Université de Paris").
Proof.
  destruct (@save_configuration_then_load json_renamed config_two_keys
              "Université de Paris" ∅) as (config & fs' & H1 & H2 & H3 & _).
  - reflexivity.
  - exists config, fs'. split; [exact H1|]. split; [exact H2|exact H3].
Defined.

Lemma update_missing_id_noop_witness :
  update df_135 2
    (update_values "Martin" "Lea" "Chimie" 16 23 "lea@univ.fr" 150 "Actif")
  = df_135.
Proof.
  apply update_missing_id_noop.
  - intros r Hr. cbn [df_135 rows] in Hr.
    repeat (apply elem_of_cons in Hr as [->|Hr]; [vm_compute; reflexivity|]).
    by apply elem_of_nil in Hr.
  - intros c Hc. unfold update_cols in Hc. cbn [df_135 columns].
    repeat (apply elem_of_cons in Hc as [->|Hc]; [vm_compute; in_list|]).
    by apply elem_of_nil in Hc.
Defined.

Lemma import_append_keeps_all_witness :
  ids (@import_handler pandas_135 df_dupont_only ∅ df_135 Ajouter).1.1
  = ids df_dupont_only ++ ids df_135.
Proof.
  apply (@import_append_keeps_all pandas_135 df_dupont_only df_135 ∅).
  - repeat constructor; eexists; vm_compute; reflexivity.
  - exact integer_ids_df_135.
Defined.


Lemma schema_typed_df_135 : schema_typed df_135.
Proof. apply canonical_schema_typed, canonical_df_135. Defined.

Lemma schema_typed_df_duplicates : schema_typed df_duplicates.
Proof.
  apply canonical_schema_typed. split; [reflexivity|].
  unfold df_duplicates, dupont. cbn [rows].
  repeat (apply Forall_cons; split;
          [apply student_canonical;
           first [ reflexivity | apply (bool_decide_unpack _); exact I ]|]).
  apply Forall_nil. exact I.
Defined.

Lemma printable_df_135 : @printable df_135.
Proof.
  intros r col Hr Hcol. cbn [df_135 rows] in Hr.
  assert (object_columns df_135 =
          ["nom"; "prenom"; "specialite"; "date_inscription"; "email";
           "statut"]) as Hoc by (vm_compute; reflexivity).
  rewrite Hoc in Hcol. clear Hoc.
  repeat (apply elem_of_cons in Hr as [->|Hr]);
    try (by apply elem_of_nil in Hr);
    repeat (apply elem_of_cons in Hcol as [->|Hcol]);
    try (by apply elem_of_nil in Hcol);
    vm_compute; eexists; reflexivity.
Defined.

Lemma printable_df_missing_email : @printable df_missing_email.
Proof.
  intros r col Hr Hcol. cbn [df_missing_email rows] in Hr.
  assert (object_columns df_missing_email =
          ["nom"; "prenom"; "specialite"; "date_inscription"; "email";
           "statut"]) as Hoc by (vm_compute; reflexivity).
  rewrite Hoc in Hcol. clear Hoc.
  repeat (apply elem_of_cons in Hr as [->|Hr]);
    try (by apply elem_of_nil in Hr);
    repeat (apply elem_of_cons in Hcol as [->|Hcol]);
    try (by apply elem_of_nil in Hcol);
    vm_compute; eexists; reflexivity.
Defined.

Lemma update_then_delete_witness :
  delete (update df_135 3
            (update_values "Martin" "Lea" "Chimie" 16 23 "lea@univ.fr" 150
                           "Actif")) 3
  = {| columns := columns create_empty_dataframe; rows := [dupont; bernard] |}.
Proof.
  rewrite (update_then_delete df_135 3 "Martin" "Lea" "Chimie" 16 23
             "lea@univ.fr" 150 "Actif").
  - vm_compute. reflexivity.
  - intros c Hc. unfold update_cols in Hc. cbn [df_135 columns].
    repeat (apply elem_of_cons in Hc as [->|Hc]; [vm_compute; in_list|]).
    by apply elem_of_nil in Hc.
  - assert (column "moyenne_generale" df_135 =
            [VFloat 12; VFloat 15; VFloat 9]) as ->
      by (vm_compute; reflexivity).
    repeat constructor; by eexists.
Defined.

Lemma create_keeps_identifiers_unique_witness :
  ∃ (n : Z) (df' : DataFrame),
    @create pandas_135 latin_python df_135 fs_135 "Dupond" "Marie" "Biologie"
            12 20 "" 180 "Université Azure" "2024-09-05 11:00:00"
    = Some (df', @save_data pandas_135 df' fs_135,
            created "Marie" "Dupond" (VInt n)) ∧
    NoDup (ids df') ∧ ids df' = [1; 3; 5] ++ [n].
Proof.
  assert (ids df_135 = [1; 3; 5]) as Hids by (vm_compute; reflexivity).
  destruct (@create_keeps_identifiers_unique pandas_135 latin_python df_135
              fs_135 "Dupond" "Marie" "Biologie" 12 20 "" 180
              "Université Azure" "2024-09-05 11:00:00")
    as (n & df' & Hcreate & _ & _ & Hnodup & Hids' & _).
  - repeat split; discriminate.
  - vm_compute. apply list_elem_of_here.
  - exact integer_ids_df_135.
  - rewrite Hids.
    repeat (apply NoDup_cons; split;
            [rewrite ?elem_of_cons, elem_of_nil; lia|]).
    apply NoDup_nil. exact I.
  - rewrite Hids. intros m Hm. rewrite !elem_of_cons, elem_of_nil in Hm. lia.
  - exists n, df'. split; [exact Hcreate|]. split; [exact Hnodup|].
    by rewrite <- Hids.
Defined.

Lemma create_delete_create_reuses_identifier_witness :
  ∃ (n : Z) (df1 df2 : DataFrame) (fs1 : FS),
    @create pandas_135 latin_python df_135 fs_135 "Dupond" "Marie" "Biologie"
            12 20 "" 180 "Université Azure" "2024-09-05 11:00:00"
    = Some (df1, fs1, created "Marie" "Dupond" (VInt n)) ∧
    @create pandas_135 latin_python (@delete_handler pandas_135 df1 fs1 n).1.1
            (@delete_handler pandas_135 df1 fs1 n).1.2
            "Roux" "Emma" "Chimie" 14 21 "" 180 "Université Azure"
            "2024-09-06 09:00:00"
    = Some (df2, @save_data pandas_135 df2
                   (@delete_handler pandas_135 df1 fs1 n).1.2,
            created "Emma" "Roux" (VInt n)).
Proof.
  apply (@create_delete_create_reuses_identifier pandas_135 latin_python).
  - repeat split; discriminate.
  - repeat split; discriminate.
  - vm_compute. apply list_elem_of_here.
  - exact integer_ids_df_135.
Defined.

Lemma create_keeps_existing_cells_witness :
  ∃ (n : Z) (df' : DataFrame) (r : row),
    @create pandas_135 latin_python df_135 fs_135 "Dupond" "Marie" "Biologie"
            12 20 "" 180 "Université Azure" "2024-09-05 11:00:00"
    = Some (df', @save_data pandas_135 df' fs_135,
            created "Marie" "Dupond" (VInt n)) ∧
    rows df' = [dupont; martin; bernard; r].
Proof.
  destruct (@create_keeps_existing_cells pandas_135 latin_python df_135 fs_135
              "Dupond" "Marie" "Biologie" 12 20 "" 180 "Université Azure"
              "2024-09-05 11:00:00")
    as (n & df' & r & Hcreate & _ & Hrows & _).
  - repeat split; discriminate.
  - exact schema_typed_df_135.
  - exists n, df', r. split; [exact Hcreate|exact Hrows].
Defined.

Lemma import_replace_then_load_witness :
  columns df_id_nom `prefix_of`
    columns (@load_data (pandas_of [(text_id_nom, df_id_nom)])
               (@import_handler (pandas_of [(text_id_nom, df_id_nom)])
                  df_135 ∅ df_id_nom Remplacer).1.2) ∧
  length (rows (@load_data (pandas_of [(text_id_nom, df_id_nom)])
                  (@import_handler (pandas_of [(text_id_nom, df_id_nom)])
                     df_135 ∅ df_id_nom Remplacer).1.2)) = 1%nat.
Proof.
  destruct (@import_replace_then_load (pandas_of [(text_id_nom, df_id_nom)])
              df_135 df_id_nom ∅) as (_ & _ & Hpre & _ & Hlen & _).
  - vm_compute. reflexivity.
  - split; [exact Hpre|exact Hlen].
Defined.

Lemma search_returns_rows_in_order_witness :
  ∃ res, @search latin_python df_135 "D" = Some res ∧
         rows res = [dupont; bernard] ∧
         rows res `sublist_of` rows df_135.
Proof.
  destruct (@search_returns_rows_in_order latin_python df_135 "D"
              [re_lit "d"]) as (res & Hres & _ & Hsub & _).
  - vm_compute. reflexivity.
  - exact printable_df_135.
  - exists res. split; [exact Hres|]. split; [|exact Hsub].
    assert (@search latin_python df_135 "D" =
            Some {| columns := columns create_empty_dataframe;
                    rows := [dupont; bernard] |}) as Hcomp
      by (vm_compute; reflexivity).
    rewrite Hcomp in Hres. by injection Hres as <-.
Defined.

Lemma search_plain_rows_witness :
  ∃ res, @search latin_python df_missing_email "NaN" = Some res ∧
         (row_martin ∈ rows res ↔
          row_martin ∈ rows df_missing_email ∧
          ∃ col s, col ∈ object_columns df_missing_email ∧
                   str_value (cell col row_martin) = Some s ∧
                   is_in (@lower latin_python "NaN") (@lower latin_python s)
                   = true) ∧
         rows res = [row_martin].
Proof.
  destruct (@search_plain_rows latin_python df_missing_email "NaN")
    as (res & Hres & Hrows).
  - vm_compute. reflexivity.
  - exact printable_df_missing_email.
  - exists res. split; [exact Hres|]. split; [apply Hrows|].
    assert (@search latin_python df_missing_email "NaN" =
            Some {| columns := columns create_empty_dataframe;
                    rows := [row_martin] |}) as Hcomp
      by (vm_compute; reflexivity).
    rewrite Hcomp in Hres. by injection Hres as <-.
Defined.

Lemma search_skips_numeric_columns_witness :
  @search latin_python df_numbers "20"
  = Some {| columns := ["id"; "age"]; rows := [] |}.
Proof.
  apply (@search_skips_numeric_columns latin_python df_numbers "20"
           [re_lit "2"; re_lit "0"]).
  - vm_compute. reflexivity.
  - vm_compute. reflexivity.
Defined.

Lemma student_data_of_chosen_label_witness :
  ∃ (label : string) (r0 : row),
    student_name (student 1 "Durand" "Anne" "Chimie" 14 21
                          "2024-09-04 08:00:00" "anne.durand@univ.fr" 180
                          "Actif") = Some label ∧
    (selected_id label ≫= student_data df_duplicates) = Some r0 ∧
    rows df_duplicates !! 0%nat = Some r0.
Proof.
  destruct (student_data_of_chosen_label df_duplicates 1
              (student 1 "Durand" "Anne" "Chimie" 14 21 "2024-09-04 08:00:00"
                       "anne.durand@univ.fr" 180 "Actif"))
    as (n & label & r0 & i0 & Hid & Hlabel & _ & Hdata & Hi0 & Hle & _ & Hfirst
        & _).
  - exact schema_typed_df_duplicates.
  - reflexivity.
  - exists label, r0. split; [exact Hlabel|]. split; [exact Hdata|].
    destruct i0 as [|[|i0]]; [exact Hi0| |lia].
    exfalso. apply (Hfirst 0%nat dupont); [lia|reflexivity|].
    vm_compute in Hid. injection Hid as <-. vm_compute. reflexivity.
Defined.

(** With the duplicated identifier, the label of the second student
    selects the row of the first. *)
Example student_data_duplicate :
  (selected_id "1 - Anne Durand (Chimie)" ≫= student_data df_duplicates)
  = Some dupont.
Proof. vm_compute. reflexivity. Qed.
